(** * Document versioning, re-indexing and OCR extraction of agentic-rag

    A shallow embedding of [src/agent/api.py] (document versioning
    endpoints) and [src/ingestion/ocr.py] (Tesseract helpers), followed by
    the properties established about them.

    Conventions of the embedding.
    - A Python [str] used as a version, language, path or metadata string is
      a Rocq [string]; each character stands for the code point of the same
      number (0..255).  The character classes below are Python's for that
      range.
    - File content is [text], a list of Unicode code points, so that decoding
      and line splitting are exact.
    - [int] values are [N] or [Z] (Python integers are unbounded; the limit
      on the number of digits that [int()] accepts is not modelled).
    - JSON columns are kept in decoded form; [json.dumps] followed by
      [json.loads] is the identity on them. *)

From Stdlib Require Import NArith ZArith Ascii String DecimalString DecimalN.
From Stdlib.Strings Require Import Byte.
From stdpp Require Import base option list gmap strings.

Local Open Scope N_scope.

(* ===================================================================== *)
(** * Part I.  Definitions                                                 *)
(* ===================================================================== *)

(** ** Python string primitives *)

Module PyStr.

Definition code (c : ascii) : N := N_of_ascii c.

(** [str.isspace] on one character: TAB..CR, FS..US, space, NEL, NBSP. *)
Definition isspace (c : ascii) : bool :=
  let n := code c in
  ((9 <=? n) && (n <=? 13)) || ((28 <=? n) && (n <=? 32))
  || (n =? 133) || (n =? 160).

(** A character [int()] reads as a decimal digit. *)
Definition isdecimal (c : ascii) : bool :=
  let n := code c in (48 <=? n) && (n <=? 57).

(** [str.isdigit] on one character: the decimal digits and the
    superscripts two, three and one. *)
Definition isdigit_char (c : ascii) : bool :=
  let n := code c in
  isdecimal c || (n =? 178) || (n =? 179) || (n =? 185).

Definition lower_char (c : ascii) : ascii :=
  let n := code c in
  if ((65 <=? n) && (n <=? 90))
     || ((192 <=? n) && (n <=? 222) && negb (n =? 215))
  then ascii_of_N (n + 32) else c.

Fixpoint lower (s : string) : string :=
  match s with
  | EmptyString => EmptyString
  | String c r => String (lower_char c) (lower r)
  end.

Fixpoint lstrip (s : string) : string :=
  match s with
  | EmptyString => EmptyString
  | String c r => if isspace c then lstrip r else s
  end.

Fixpoint rstrip (s : string) : string :=
  match s with
  | EmptyString => EmptyString
  | String c r =>
      match rstrip r with
      | EmptyString => if isspace c then EmptyString else String c EmptyString
      | r' => String c r'
      end
  end.

(** [s.strip()] *)
Definition strip (s : string) : string := rstrip (lstrip s).

(** [s.replace(c, '')] for a one-character [c]. *)
Fixpoint remove_char (x : ascii) (s : string) : string :=
  match s with
  | EmptyString => EmptyString
  | String c r =>
      if Ascii.eqb c x then remove_char x r else String c (remove_char x r)
  end.

(** [s.split(sep)] for a one-character [sep]: never empty. *)
Fixpoint split (sep : ascii) (s : string) : list string :=
  match s with
  | EmptyString => [EmptyString]
  | String c r =>
      if Ascii.eqb c sep then EmptyString :: split sep r
      else match split sep r with
           | h :: t => String c h :: t
           | [] => [String c EmptyString]
           end
  end.

Fixpoint forallb_str (p : ascii -> bool) (s : string) : bool :=
  match s with
  | EmptyString => true
  | String c r => p c && forallb_str p r
  end.

(** [s.isdigit()]: false on the empty string. *)
Definition isdigit (s : string) : bool :=
  match s with
  | EmptyString => false
  | _ => forallb_str isdigit_char s
  end.

(** [int(s)] for a string of digit characters; [None] is [ValueError]
    (a superscript digit is not a decimal literal). *)
Definition int (s : string) : option N :=
  match NilEmpty.uint_of_string s with
  | Some d => Some (N.of_uint d)
  | None => None
  end.

(** [str(n)] for a non-negative integer. *)
Definition str_N (n : N) : string := NilEmpty.string_of_uint (N.to_uint n).

Definition str_Z (z : Z) : string :=
  match z with
  | Zneg p => String "-" (str_N (Npos p))
  | _ => str_N (Z.to_N z)
  end.

(** [sep.join(l)] *)
Fixpoint join (sep : string) (l : list string) : string :=
  match l with
  | [] => EmptyString
  | [x] => x
  | x :: r => x +:+ sep +:+ join sep r
  end.

Definition nonempty (s : string) : bool :=
  match s with EmptyString => false | _ => true end.

(** The characters of a version number: decimal digits and the dot. *)
Definition version_char (c : ascii) : bool := isdecimal c || Ascii.eqb c ".".

End PyStr.

(** ** Decoded text: code points, codecs and line splitting *)

Definition text := list N.

(** The code points of a string, for literals of this file. *)
Fixpoint text_of_string (s : string) : text :=
  match s with
  | EmptyString => []
  | String c r => PyStr.code c :: text_of_string r
  end.

Module PyText.

Definition in_range (lo hi b : N) : bool := (lo <=? b) && (b <=? hi).

(** A UTF-8 continuation byte. *)
Definition cont (b : N) : bool := in_range 128 191 b.

(** The second byte allowed after the lead byte of a three-byte and of a
    four-byte sequence (no overlong forms, no surrogates, at most
    U+10FFFF). *)
Definition second3 (b0 b1 : N) : bool :=
  if b0 =? 224 then in_range 160 191 b1
  else if b0 =? 237 then in_range 128 159 b1
  else cont b1.

Definition second4 (b0 b1 : N) : bool :=
  if b0 =? 240 then in_range 144 191 b1
  else if b0 =? 244 then in_range 128 143 b1
  else cont b1.

(** [raw.decode("utf-8")]; [None] is [UnicodeDecodeError]. *)
Fixpoint decode_utf8 (bs : list Byte.byte) : option text :=
  match bs with
  | [] => Some []
  | x0 :: r0 =>
    let b0 := Byte.to_N x0 in
    if b0 <? 128 then cons b0 <$> decode_utf8 r0
    else
      match r0 with
      | [] => None
      | x1 :: r1 =>
        let b1 := Byte.to_N x1 in
        if in_range 194 223 b0 then
          if cont b1
          then cons ((b0 - 192) * 64 + (b1 - 128)) <$> decode_utf8 r1
          else None
        else
          match r1 with
          | [] => None
          | x2 :: r2 =>
            let b2 := Byte.to_N x2 in
            if in_range 224 239 b0 then
              if second3 b0 b1 && cont b2
              then cons ((b0 - 224) * 4096 + (b1 - 128) * 64 + (b2 - 128))
                     <$> decode_utf8 r2
              else None
            else
              match r2 with
              | [] => None
              | x3 :: r3 =>
                let b3 := Byte.to_N x3 in
                if in_range 240 244 b0 && second4 b0 b1 && cont b2 && cont b3
                then cons ((b0 - 240) * 262144 + (b1 - 128) * 4096
                           + (b2 - 128) * 64 + (b3 - 128))
                       <$> decode_utf8 r3
                else None
              end
          end
      end
  end.

(** The [errors] argument of [bytes.decode]. *)
Inductive errors := Strict | Ignore.

(** Decoding with a one-byte character map: a byte the map does not cover
    raises under [Strict] and is dropped under [Ignore]. *)
Fixpoint charmap_decode (table : Byte.byte -> option N) (e : errors)
    (bs : list Byte.byte) : option text :=
  match bs with
  | [] => Some []
  | x :: r =>
      match table x with
      | Some c => cons c <$> charmap_decode table e r
      | None =>
          match e with
          | Ignore => charmap_decode table e r
          | Strict => None
          end
      end
  end.

(** latin-1 maps every byte to the code point of the same number. *)
Definition latin_1 (b : Byte.byte) : option N := Some (Byte.to_N b).

(** [raw.decode("latin-1", errors=e)] *)
Definition decode_latin_1 (e : errors) (bs : list Byte.byte) : option text :=
  charmap_decode latin_1 e bs.

(** The line boundaries of [str.splitlines] other than CR LF. *)
Definition is_linebreak (c : N) : bool :=
  in_range 10 13 c || in_range 28 30 c || (c =? 133)
  || (c =? 8232) || (c =? 8233).

(** [s.splitlines(keepends=True)] *)
Fixpoint splitlines (t : text) : list text :=
  match t with
  | [] => []
  | c :: r =>
      if c =? 13 then
        match r with
        | c1 :: r' =>
            if c1 =? 10 then [13; 10] :: splitlines r'
            else [13] :: splitlines r
        | [] => [[13]]
        end
      else if is_linebreak c then [c] :: splitlines r
      else
        match r with
        | [] => [[c]]
        | _ =>
            match splitlines r with
            | h :: tl => (c :: h) :: tl
            | [] => [[c]]
            end
        end
  end.

End PyText.

(** ** JSON values as Python sees them *)

(** A decoded JSON value (or Python [None]).  A float, array or object is
    carried as [JOther] by the two things this code can observe of it: its
    [str()] rendering and its truth value. *)
Inductive jval :=
| JNull
| JBool (b : bool)
| JNum (z : Z)
| JStr (s : string)
| JOther (rendering : string) (truth : bool).

Definition truthy (v : jval) : bool :=
  match v with
  | JNull => false
  | JBool b => b
  | JNum z => negb (Z.eqb z 0)
  | JStr s => PyStr.nonempty s
  | JOther _ t => t
  end.

(** [str(v)] *)
Definition py_str (v : jval) : string :=
  match v with
  | JNull => "None"
  | JBool true => "True"
  | JBool false => "False"
  | JNum z => PyStr.str_Z z
  | JStr s => s
  | JOther r _ => r
  end.

(** ** Version strings ([api.py], 1643-1660) *)

(** One component of [_parse_version]:
    [int(parts[i]) if len(parts) > i and parts[i].isdigit() else dflt];
    [None] is the [ValueError] of [int]. *)
Definition version_component (parts : list string) (i : nat) (dflt : N)
    : option N :=
  match parts !! i with
  | Some p => if PyStr.isdigit p then PyStr.int p else Some dflt
  | None => Some dflt
  end.

Definition _parse_version (v : jval) : N * N :=
  if negb (truthy v) then (1, 0)
  else
    let parts :=
      PyStr.split "." (PyStr.remove_char "v" (PyStr.lower (PyStr.strip (py_str v)))) in
    match version_component parts 0 1 with
    | Some major =>
        match version_component parts 1 0 with
        | Some minor => (major, minor)
        | None => (1, 0)
        end
    | None => (1, 0)
    end.

Definition _bump_version (current : jval) (bump : string) : string :=
  let '(major, minor) := _parse_version current in
  if String.eqb bump "major" then PyStr.str_N (major + 1) +:+ ".0"
  else PyStr.str_N major +:+ "." +:+ PyStr.str_N (minor + 1).

(** ** OCR helpers ([ocr.py]) *)

Module Ocr.

(** The two exceptions of the public contract. *)
Inductive exn :=
| FileNotFoundError (msg : string)
| OCRError (msg : string).

(** A raster image: its colour mode and the identity of its pixel data. *)
Record image := { mode : string; pixels : nat }.

(** What [pytesseract.image_to_string] does on one call.  Only the
    outcomes [_run_tesseract] has a handler for are modelled. *)
Inductive recognition :=
| Recognized (out : string)
| TesseractNotFoundError
| TesseractError (msg : string).

(** What [page.extract_text()] does on one page. *)
Inductive page_text :=
| PageText (t : option string)
| PageRaises.

(** Calls made to the rasterizer and the recognition engine. *)
Inductive event :=
| Rasterize (path : string) (dpi : N)
| Recognize (img : image) (lang : string)
| Close (img : image).

(** The [languages] entry of the metadata: one code for an image, a list
    for a PDF. *)
Inductive languages_used :=
| OneLanguage (lang : string)
| Languages (langs : list string).

(** The metadata dictionary of a result; an absent key is [None]. *)
Record ocr_metadata := {
  engine : string;
  source : string;
  page_count : option nat;
  languages : option languages_used;
  used_ocr : bool
}.

Record OCRResult := { text : string; metadata : ocr_metadata }.

(** The installation and the collaborators of the module.  The engine is
    called with the configured [_TESS_CONFIG]; that constant only reaches
    [image_to_string] and is part of what the field of that name stands
    for. *)
Record env := {
  pytesseract_installed : bool;
  Image_installed : bool;
  convert_from_path_installed : bool;
  PdfReader_installed : bool;
  _DEFAULT_LANG : string;
  _FALLBACK_LANG : string;
  _PDF_DPI : N;
  path_exists : string -> bool;
  (** [Path(path).name] *)
  path_name : string -> string;
  Image_open : string -> image;
  (** [PdfReader(path).pages]; [None] when the reader raises. *)
  PdfReader_pages : string -> option (list page_text);
  convert_from_path : string -> N -> list image;
  image_to_string : image -> string -> recognition
}.

(** Computations that log collaborator calls and may raise. *)
Definition M (A : Type) : Type := list event * (exn + A).

Definition ret {A} (a : A) : M A := ([], inr a).
Definition raise {A} (e : exn) : M A := ([], inl e).
Definition log (ev : event) : M unit := ([ev], inr tt).
Definition bind {A B} (m : M A) (k : A -> M B) : M B :=
  match m with
  | (t, inl e) => (t, inl e)
  | (t, inr a) => let '(t', r) := k a in (t ++ t', r)
  end.
(** [try: m finally: cleanup] *)
Definition finally {A} (m : M A) (cleanup : list event) : M A :=
  (m.1 ++ cleanup, m.2).

Declare Scope ocr_scope.
Delimit Scope ocr_scope with ocr.
Notation "'let*' x ':=' m 'in' k" := (bind m (fun x => k))
  (at level 10, x pattern, m at level 100, k at level 200) : ocr_scope.
Notation "m ;;; k" := (bind m (fun _ => k))
  (at level 90, right associativity) : ocr_scope.
Local Open Scope ocr_scope.

Definition SUPPORTED_IMAGE_EXTENSIONS : list string :=
  [".png"; ".jpg"; ".jpeg"; ".tif"; ".tiff"; ".bmp"; ".gif"].
Definition SUPPORTED_PDF_EXTENSIONS : list string := [".pdf"].
Definition SUPPORTED_EXTENSIONS : list string :=
  SUPPORTED_IMAGE_EXTENSIONS ++ SUPPORTED_PDF_EXTENSIONS.

Definition mem (x : string) (l : list string) : bool :=
  existsb (String.eqb x) l.

(** The tail of [s] from its last dot. *)
Fixpoint from_last_dot (s : string) : option string :=
  match s with
  | EmptyString => None
  | String c r =>
      match from_last_dot r with
      | Some x => Some x
      | None => if Ascii.eqb c "." then Some s else None
      end
  end.

(** [PurePath.suffix]: the last dot of the name counts when it is neither
    its first nor its last character. *)
Definition suffix_of_name (name : string) : string :=
  match name with
  | EmptyString => EmptyString
  | String _ r =>
      match from_last_dot r with
      | Some (String d (String c x)) => String d (String c x)
      | _ => EmptyString
      end
  end.

Definition nl2 : string := String "010" (String "010" EmptyString).

Fixpoint replace_char (x y : ascii) (s : string) : string :=
  match s with
  | EmptyString => EmptyString
  | String c r =>
      String (if Ascii.eqb c x then y else c) (replace_char x y r)
  end.

Definition _split_languages (spec : option string) : list string :=
  match spec with
  | None => []
  | Some EmptyString => []
  | Some spec =>
      let normalized := replace_char ";" "," spec in
      omap (fun token =>
              if PyStr.nonempty (PyStr.strip token)
              then Some (PyStr.strip token) else None)
           (PyStr.split "," normalized)
  end.

Definition _dedupe_preserve_order (items : list string) : list string :=
  (fold_left
     (fun '(seen, result) item =>
        if PyStr.nonempty item && negb (mem item seen)
        then (item :: seen, result ++ [item])
        else (seen, result))
     items ([], [])).2.

(** A call to the recognition engine. *)
Definition is_recognize (ev : event) : bool :=
  match ev with
  | Recognize _ _ => true
  | _ => false
  end.

(** [image.convert("RGB") if image.mode not in ("L", "RGB") else image] *)
Definition prepared (img : image) : image :=
  if negb (mem (mode img) ["L"; "RGB"])
  then {| mode := "RGB"; pixels := pixels img |} else img.

(** [f"lang='{lang}' -> {exc}" if lang else str(exc)] *)
Definition error_msg (lang exc : string) : string :=
  if PyStr.nonempty lang then "lang='" +:+ lang +:+ "' -> " +:+ exc else exc.

Definition not_found_msg : string :=
  "Tesseract binary not found. Ensure Tesseract OCR is installed and "
  +:+ "available on PATH.".

Section WithEnv.
Variable E : env.

(** [Path(path).suffix.lower()] *)
Definition suffix (path : string) : string :=
  PyStr.lower (suffix_of_name (path_name E path)).

Definition is_supported (path : string) : bool :=
  mem (suffix path) SUPPORTED_EXTENSIONS.

Definition _resolve_language_attempts (langs : option string)
    : list string :=
  let requested :=
    match langs with
    | Some (String c r) => String c r
    | _ => _DEFAULT_LANG E
    end in
  let attempts := _split_languages (Some requested) in
  let fallbacks := _split_languages (Some (_FALLBACK_LANG E)) in
  let attempts :=
    fold_left
      (fun attempts fallback =>
         if PyStr.nonempty fallback && negb (mem fallback attempts)
         then attempts ++ [fallback] else attempts)
      fallbacks attempts in
  match attempts with
  | [] => ["eng"]
  | _ => attempts
  end.

(** The [for lang in candidates] loop of [_run_tesseract]; [errors] is
    the list accumulated so far. *)
Fixpoint _run_tesseract_loop (img : image) (candidates : list string)
    (errors : list string) : M (string * string) :=
  match candidates with
  | [] =>
      raise (OCRError ("Tesseract failed for all language candidates: "
                       +:+ PyStr.join "; " errors))
  | lang :: rest =>
      log (Recognize img lang) ;;;
      match image_to_string E img lang with
      | Recognized out => ret (PyStr.strip out, lang)
      | TesseractNotFoundError => raise (OCRError not_found_msg)
      | TesseractError exc =>
          _run_tesseract_loop img rest (errors ++ [error_msg lang exc])
      end
  end.

Definition _run_tesseract (img : image) (candidates : list string)
    : M (string * string) :=
  if negb (pytesseract_installed E) then
    raise (OCRError
      "pytesseract is not installed. Please add pytesseract to requirements.")
  else _run_tesseract_loop (prepared img) candidates [].


(** The stripped texts of the pages that have any, in page order. *)
Definition direct_chunks (pages : list page_text) : list string :=
  omap (fun page =>
          let chunk :=
            match page with
            | PageText (Some t) => t
            | PageText None => EmptyString
            | PageRaises => EmptyString
            end in
          if PyStr.nonempty (PyStr.strip chunk)
          then Some (PyStr.strip chunk) else None)
       pages.

(** Step 1 of [_extract_from_pdf]; [None] when control falls through to
    step 2. *)
Definition direct_text_phase (path : string) : option OCRResult :=
  if PdfReader_installed E then
    match PdfReader_pages E path with
    | Some pages =>
        let direct_text :=
          PyStr.strip (PyStr.join nl2 (direct_chunks pages)) in
        if PyStr.nonempty direct_text then
          Some {| text := direct_text;
                  metadata := {| engine := "pypdf"; source := "pdf_text";
                                 page_count := Some (length pages);
                                 languages := None;
                                 used_ocr := false |} |}
        else None
    | None => None
    end
  else None.

(** The [for idx, image in enumerate(images)] loop of step 2. *)
Fixpoint ocr_pages (images : list image) (candidates : list string)
    : M (list string * list string) :=
  match images with
  | [] => ret ([], [])
  | img :: rest =>
      let* (text, lang_used) := _run_tesseract img candidates in
      let* (texts, langs) := ocr_pages rest candidates in
      ret (text :: texts, lang_used :: langs)
  end.

Definition _extract_from_pdf (path : string) (langs : option string)
    : M OCRResult :=
  match direct_text_phase path with
  | Some result => ret result
  | None =>
      if negb (convert_from_path_installed E) then
        raise (OCRError
          ("pdf2image is required for OCR on PDF files. Install pdf2image or "
           +:+ "provide a PDF with selectable text."))
      else
        log (Rasterize path (_PDF_DPI E)) ;;;
        let images := convert_from_path E path (_PDF_DPI E) in
        match images with
        | [] => raise (OCRError "No pages found in PDF for OCR processing.")
        | _ =>
            let candidates := _resolve_language_attempts langs in
            let* (ocr_text_chunks, used_languages) :=
              finally (ocr_pages images candidates) (map Close images) in
            let combined_text :=
              PyStr.strip
                (PyStr.join nl2
                   (omap (fun chunk =>
                            if PyStr.nonempty (PyStr.strip chunk)
                            then Some (PyStr.strip chunk) else None)
                         ocr_text_chunks)) in
            ret {| text := combined_text;
                   metadata :=
                     {| engine := "tesseract"; source := "pdf_ocr";
                        page_count := Some (length images);
                        languages :=
                          Some (Languages
                                  (_dedupe_preserve_order used_languages));
                        used_ocr := true |} |}
        end
  end.



End WithEnv.

End Ocr.

(** ** Document versioning endpoints ([api.py], 1663-2072) *)

Module Api.

(** A JSON object column in decoded form. *)
Abbreviation metadata := (gmap string jval).

(** A row of [documents]: the columns these endpoints read or write. *)
Record document := {
  doc_title : string;
  doc_source : option string;
  doc_content : option text;
  doc_metadata : option metadata;
  doc_updated_at : N
}.

(** A row of [document_versions]. *)
Record version_row := {
  ver_id : N;
  ver_document_id : N;
  ver_version : string;
  ver_change_summary : string;
  ver_content : option text;
  ver_metadata : option metadata;
  ver_file_path : jval;
  ver_file_mime : jval;
  ver_file_size : jval;
  ver_created_by : option N
}.

(** A row of [chunks]. *)
Record chunk_row := {
  chunk_document_id : N;
  chunk_content : text;
  chunk_embedding : option string;
  chunk_index : Z;
  chunk_metadata : metadata;
  chunk_token_count : option N
}.

(** A chunk as the chunker and the embedder hand it over; a component of
    the embedding is carried by its [str()] rendering. *)
Record DocumentChunk := {
  content : text;
  index : Z;
  chunk_meta : metadata;
  token_count : option N;
  embedding : option (list string)
}.

(** The three tables. *)
Record db := {
  documents : gmap N document;
  chunks : list chunk_row;
  document_versions : list version_row
}.

(** The SQL statements of the endpoints, by call site. *)
Inductive stmt :=
| SelectDocument
| SelectBaseline
| InsertBaseline
| DeleteChunks
| InsertChunk (position : nat)
| InsertVersion
| UpdateDocument
| SelectVersion
| SelectContent (selector : string).

(** How a statement can fail: before it reaches the server (the
    transaction stays usable) or on the server (the transaction is
    aborted and refuses every later statement). *)
Inductive fault := ClientFault | ServerFault.

Inductive exn :=
| HTTPException (status_code : N) (detail : string)
| DataError (argument : string)
| PostgresError (at_stmt : stmt)
| InFailedSQLTransactionError
| ChunkingError
| EmbeddingError.

(** [str(e)] of an exception, as far as a response shows it. *)
Definition exn_str (e : exn) : string :=
  match e with
  | HTTPException _ detail => detail
  | DataError a => "invalid input for query argument: " +:+ a
  | PostgresError _ => "database error"
  | InFailedSQLTransactionError =>
      "current transaction is aborted, commands ignored until end of transaction block"
  | ChunkingError => "chunking failed"
  | EmbeddingError => "embedding failed"
  end.

(** The collaborators of one request. *)
Record services := {
  (** the [::uuid] cast of a query argument; [None] raises [DataError] *)
  parse_uuid : string -> option N;
  (** the default [id] of a new [document_versions] row *)
  gen_random_uuid : db -> N;
  (** [CURRENT_TIMESTAMP] *)
  current_timestamp : N;
  (** [chunker.chunk_document(content, title, source, metadata)] *)
  chunk_document : text -> string -> string -> metadata
                   -> option (list DocumentChunk);
  (** [embedder.embed_chunks(chunks)] *)
  embed_chunks : list DocumentChunk -> option (list DocumentChunk);
  (** [difflib.unified_diff(a, b, fromfile, tofile)] *)
  unified_diff : list text -> list text -> string -> string -> list text;
  (** which statements fail during this request *)
  faults : stmt -> option fault
}.

(** The uploaded file of a request; [inl msg] is a [read()] that raises. *)
Record UploadFile := {
  filename : option string;
  content_type : option string;
  read : string + list Byte.byte
}.

Record CompareRequest := {
  left_version_id : option string;
  right_version_id : option string;
  left : option string;
  right : option string
}.

(** *** Transactions *)

(** The connection inside [conn.transaction()]: the working copy of the
    tables and whether the server has aborted the transaction. *)
Record tx := { tx_db : db; tx_failed : bool }.

Definition T (A : Type) : Type := tx -> (exn + A) * tx.

Definition ret {A} (a : A) : T A := fun st => (inr a, st).
Definition raise {A} (e : exn) : T A := fun st => (inl e, st).
Definition bind {A B} (m : T A) (k : A -> T B) : T B :=
  fun st =>
    match m st with
    | (inl e, st') => (inl e, st')
    | (inr a, st') => k a st'
    end.

Declare Scope api_scope.
Delimit Scope api_scope with api.
Notation "'let*' x ':=' m 'in' k" := (bind m (fun x => k))
  (at level 10, x pattern, m at level 100, k at level 200) : api_scope.
Notation "m ;;; k" := (bind m (fun _ => k))
  (at level 90, right associativity) : api_scope.
Local Open Scope api_scope.

(** [try: m except Exception as e: h e]; what [m] wrote before raising
    stays in the working copy. *)
Definition try_except {A} (m : T A) (h : exn -> T A) : T A :=
  fun st =>
    match m st with
    | (inl e, st') => h e st'
    | (inr a, st') => (inr a, st')
    end.

(** [async with conn.transaction(): body].  An exception rolls back; so
    does the COMMIT of a transaction the server has aborted. *)
Definition transaction {A} (body : T A) (d : db) : (exn + A) * db :=
  match body {| tx_db := d; tx_failed := false |} with
  | (inr a, st) => (inr a, if tx_failed st then d else tx_db st)
  | (inl e, _) => (inl e, d)
  end.

(** [dict.get] with Python's [None] for a missing key. *)
Definition get (m : metadata) (k : string) : jval := default JNull (m !! k).

Definition opt_str (o : option string) : jval :=
  match o with Some s => JStr s | None => JNull end.

(** [o or dflt] on an optional string. *)
Definition str_or (o : option string) (dflt : string) : string :=
  match o with
  | Some (String c r) => String c r
  | _ => dflt
  end.

(** [o1 or o2] on optional strings. *)
Definition opt_or (o1 o2 : option string) : option string :=
  match o1 with
  | Some (String c r) => o1
  | _ => o2
  end.

Section WithServices.
Variable S : services.

(** One statement [s] with effect [f] on the tables. *)
Definition statement {A} (s : stmt) (f : db -> A * db) : T A :=
  fun st =>
    if tx_failed st then (inl InFailedSQLTransactionError, st)
    else
      match faults S s with
      | Some ClientFault => (inl (PostgresError s), st)
      | Some ServerFault =>
          (inl (PostgresError s), {| tx_db := tx_db st; tx_failed := true |})
      | None =>
          let '(a, d) := f (tx_db st) in
          (inr a, {| tx_db := d; tx_failed := false |})
      end.

(** Encoding a [$n::uuid] argument. *)
Definition uuid_arg (s : string) : T N :=
  match parse_uuid S s with
  | Some u => ret u
  | None => raise (DataError s)
  end.

Definition _get_document_core (document_id : string) : T (option document) :=
  let* id := uuid_arg document_id in
  statement SelectDocument (fun d => (documents d !! id, d)).

(** Calling a collaborator that may raise. *)
Definition call {A} (r : option A) (e : exn) : T A :=
  match r with Some a => ret a | None => raise e end.

Definition embedding_data (ch : DocumentChunk) : option string :=
  match embedding ch with
  | Some (x :: r) => Some ("[" +:+ PyStr.join "," (x :: r) +:+ "]")
  | _ => None
  end.

Definition chunk_row_of (id : N) (ch : DocumentChunk) : chunk_row :=
  {| chunk_document_id := id;
     chunk_content := content ch;
     chunk_embedding := embedding_data ch;
     chunk_index := index ch;
     chunk_metadata := chunk_meta ch;
     chunk_token_count := token_count ch |}.

(** [for ch in embedded_chunks: INSERT INTO chunks ...]; [i] is the
    position of the first chunk of [chs] in the whole list. *)
Fixpoint insert_chunks (id : N) (chs : list DocumentChunk) (i : nat) : T unit :=
  match chs with
  | [] => ret tt
  | ch :: rest =>
      statement (InsertChunk i)
        (fun d => (tt, {| documents := documents d;
                          chunks := chunks d ++ [chunk_row_of id ch];
                          document_versions := document_versions d |})) ;;;
      insert_chunks id rest (Datatypes.S i)
  end.

(** [DELETE FROM chunks WHERE document_id = $1] and the insert loop. *)
Definition replace_chunks (id : N) (chs : list DocumentChunk) : T unit :=
  statement DeleteChunks
    (fun d => (tt, {| documents := documents d;
                      chunks := filter (fun c => chunk_document_id c ≠ id) (chunks d);
                      document_versions := document_versions d |})) ;;;
  insert_chunks id chs 0.

Definition insert_version (row : db -> version_row) (s : stmt) : T unit :=
  statement s
    (fun d => (tt, {| documents := documents d;
                      chunks := chunks d;
                      document_versions := document_versions d ++ [row d] |})).

(** [UPDATE documents SET content, metadata, updated_at WHERE id = $1] *)
Definition update_document (id : N) (c : text) (m : metadata) : T unit :=
  statement UpdateDocument
    (fun d => (tt, {| documents :=
                        alter (fun doc =>
                                 {| doc_title := doc_title doc;
                                    doc_source := doc_source doc;
                                    doc_content := Some c;
                                    doc_metadata := Some m;
                                    doc_updated_at := current_timestamp S |})
                              id (documents d);
                      chunks := chunks d;
                      document_versions := document_versions d |})).

(** *** [upload_new_version] *)

(** Lines 1713-1721: the bytes of the file and their decoding. *)
Definition read_new_content (file : UploadFile)
    : exn + (list Byte.byte * text) :=
  match read file with
  | inl e => inl (HTTPException 400 ("Failed to read file: " +:+ e))
  | inr raw =>
      let decoded :=
        match PyText.decode_utf8 raw with
        | Some t => Some t
        | None => PyText.decode_latin_1 PyText.Ignore raw
        end in
      match decoded with
      | Some new_content => inr (raw, new_content)
      | None =>
          inl (HTTPException 400
                 ("Failed to read file: " +:+ "codec can't decode bytes"))
      end
  end.

(** Line 1749. *)
Definition prev_ver (current_version : jval) : string :=
  match current_version with
  | JStr s => if PyStr.nonempty (PyStr.strip s) then s else "1.0"
  | _ => "1.0"
  end.

Definition has_version (id : N) (v : string) (d : db) : bool :=
  existsb (fun r => N.eqb (ver_document_id r) id && String.eqb (ver_version r) v)
          (document_versions d).

Definition baseline_row (id : N) (doc : document) (meta : metadata)
    (pv : string) (created_by : option N) (d : db) : version_row :=
  {| ver_id := gen_random_uuid S d;
     ver_document_id := id;
     ver_version := pv;
     ver_change_summary := "Initial version snapshot";
     ver_content := Some (default [] (doc_content doc));
     ver_metadata := Some meta;
     ver_file_path := get meta "file_path";
     ver_file_mime := get meta "last_upload_mime";
     ver_file_size := get meta "file_size";
     ver_created_by := created_by |}.

(** Lines 1747-1776: the baseline snapshot; returns [current_version]
    as it stands afterwards.  A failure in here is logged and dropped. *)
Definition ensure_baseline (id : N) (doc : document) (meta : metadata)
    (current_version : jval) (created_by : option N) : T jval :=
  try_except
    (let pv := prev_ver current_version in
     let* exists_ := statement SelectBaseline (fun d => (has_version id pv d, d)) in
     if negb exists_ then
       insert_version (baseline_row id doc meta pv created_by) InsertBaseline ;;;
       ret (if negb (truthy current_version) then JStr pv else current_version)
     else ret current_version)
    (fun _e => ret current_version).

(** Line 1777. *)
Definition new_version (version : option string) (current_version : jval)
    (bump : string) : string :=
  match version with
  | Some v =>
      if PyStr.nonempty (PyStr.strip v) then PyStr.strip v
      else _bump_version current_version bump
  | None => _bump_version current_version bump
  end.

(** Lines 1780-1790. *)
Definition new_metadata (meta : metadata) (nv : string) (file : UploadFile)
    (raw : list Byte.byte) : metadata :=
  let m := <["version" := JStr nv]> meta in
  match filename file with
  | Some (String c r) =>
      <["file_size" := JNum (Z.of_nat (length raw))]>
        (<["file_path" := JStr (String c r)]>
           (<["last_upload_mime" := opt_str (content_type file)]>
              (<["last_upload_filename" := JStr (String c r)]> m)))
  | _ => m
  end.

Definition snapshot_row (id : N) (nv change_summary : string)
    (new_content : text) (m : metadata) (file : UploadFile)
    (raw : list Byte.byte) (created_by : option N) (d : db) : version_row :=
  {| ver_id := gen_random_uuid S d;
     ver_document_id := id;
     ver_version := nv;
     ver_change_summary := change_summary;
     ver_content := Some new_content;
     ver_metadata := Some m;
     ver_file_path := opt_str (filename file);
     ver_file_mime := opt_str (content_type file);
     ver_file_size := JNum (Z.of_nat (length raw));
     ver_created_by := created_by |}.

(** The body of the transaction, lines 1735-1855. *)
Definition upload_body (document_id : string) (created_by : option N)
    (file : UploadFile) (raw : list Byte.byte) (new_content : text)
    (change_summary bump : string) (version : option string) : T string :=
  let* doc := _get_document_core document_id in
  match doc with
  | None => raise (HTTPException 404 "Document not found")
  | Some doc =>
      (* every later statement passes [document_id] again as [$1::uuid] *)
      let* id := uuid_arg document_id in
      let meta := default ∅ (doc_metadata doc) in
      let current_version := get meta "version" in
      let* current_version :=
        ensure_baseline id doc meta current_version created_by in
      let nv := new_version version current_version bump in
      let m := new_metadata meta nv file raw in
      let title := doc_title doc in
      let source := str_or (doc_source doc) (str_or (filename file) "uploaded") in
      let* chunks :=
        call (chunk_document S new_content title source m) ChunkingError in
      let* embedded_chunks := call (embed_chunks S chunks) EmbeddingError in
      replace_chunks id embedded_chunks ;;;
      insert_version
        (snapshot_row id nv change_summary new_content m file raw created_by)
        InsertVersion ;;;
      update_document id new_content m ;;;
      ret nv
  end.

(** [created_by] is what [_resolve_user_id_from_request] found. *)
Definition upload_new_version (document_id : string) (created_by : option N)
    (file : UploadFile) (change_summary bump : string)
    (version : option string) (d : db) : (exn + string) * db :=
  if negb (PyStr.nonempty change_summary)
     || negb (PyStr.nonempty (PyStr.strip change_summary))
  then (inl (HTTPException 400 "change_summary is required"), d)
  else
    match read_new_content file with
    | inl e => (inl e, d)
    | inr (raw, new_content) =>
        transaction
          (upload_body document_id created_by file raw new_content
             change_summary bump version) d
    end.

(** *** [compare_versions] *)

(** A query outside a transaction. *)
Definition query {A} (s : stmt) (f : db -> A) (d : db) : exn + A :=
  match faults S s with
  | Some _ => inl (PostgresError s)
  | None => inr (f d)
  end.

Definition find_version (did vid : N) (d : db) : option version_row :=
  find (fun r => N.eqb (ver_document_id r) did && N.eqb (ver_id r) vid)
       (document_versions d).

(** [row["content"] if row and row["content"] else ""] *)
Definition content_or_empty (c : option (option text)) : text :=
  match c with
  | Some (Some t) => t
  | _ => []
  end.

Definition get_content (document_id : string) (selector : option string)
    (d : db) : exn + text :=
  match selector with
  | None | Some EmptyString => inr []
  | Some sel =>
      if String.eqb sel "current" then
        match parse_uuid S document_id with
        | None => inl (DataError document_id)
        | Some did =>
            query (SelectContent sel)
              (fun d => content_or_empty (doc_content <$> documents d !! did)) d
        end
      else
        match parse_uuid S document_id with
        | None => inl (DataError document_id)
        | Some did =>
            match parse_uuid S sel with
            | None => inl (DataError sel)
            | Some vid =>
                query (SelectContent sel)
                  (fun d => content_or_empty (ver_content <$> find_version did vid d)) d
            end
        end
  end.

Definition compare_versions (document_id : string) (payload : CompareRequest)
    (d : db) : exn + text :=
  let left_sel :=
    str_or (opt_or (left payload) (left_version_id payload)) "current" in
  let right_sel := opt_or (right payload) (right_version_id payload) in
  let result :=
    match right_sel with
    | Some (String c r) =>
        let right_sel := String c r in
        match get_content document_id (Some left_sel) d with
        | inl e => inl e
        | inr l =>
            match get_content document_id (Some right_sel) d with
            | inl e => inl e
            | inr r =>
                inr (concat (unified_diff S (PyText.splitlines l)
                               (PyText.splitlines r) left_sel right_sel))
            end
        end
    | _ => inl (HTTPException 400 "right version is required")
    end in
  match result with
  | inl (HTTPException c detail) => inl (HTTPException c detail)
  | inl e => inl (HTTPException 500 (exn_str e))
  | inr diff => inr diff
  end.

(** *** [rollback_version] *)

Definition rollback_body (document_id version_id : string) : T string :=
  let* did := uuid_arg document_id in
  let* vid := uuid_arg version_id in
  let* ver := statement SelectVersion (fun d => (find_version did vid d, d)) in
  match ver with
  | None => raise (HTTPException 404 "Version not found")
  | Some ver =>
      let old_content := default [] (ver_content ver) in
      let old_meta := ver_metadata ver in
      let* doc := _get_document_core document_id in
      match doc with
      | None => raise (HTTPException 404 "Document not found")
      | Some doc =>
          let m := default ∅ old_meta in
          let title := doc_title doc in
          let source := str_or (doc_source doc) "rollback" in
          let* chunks :=
            call (chunk_document S old_content title source m) ChunkingError in
          let* embedded_chunks := call (embed_chunks S chunks) EmbeddingError in
          replace_chunks did embedded_chunks ;;;
          update_document did old_content m ;;;
          ret (ver_version ver)
      end
  end.

Definition rollback_version (document_id version_id : string) (d : db)
    : (exn + string) * db :=
  transaction (rollback_body document_id version_id) d.

End WithServices.

End Api.

(** ** A small installation for concrete runs *)

Module Fixture.
Import Api.

(** Ids written in decimal. *)
Definition parse_decimal (s : string) : option N :=
  if PyStr.forallb_str PyStr.isdecimal s && PyStr.nonempty s
  then PyStr.int s else None.

(** One chunk holding the whole content. *)
Definition whole_chunk (c : text) (_title _source : string) (m : metadata)
    : option (list DocumentChunk) :=
  Some [ {| content := c; index := 0%Z; chunk_meta := m;
            token_count := None; embedding := None |} ].

Definition constant_embedding (chs : list DocumentChunk)
    : option (list DocumentChunk) :=
  Some (map (fun ch => {| content := content ch; index := index ch;
                          chunk_meta := chunk_meta ch;
                          token_count := token_count ch;
                          embedding := Some ["0.5"; "0.25"] |}) chs).

(** A stand-in for [difflib.unified_diff]: nothing for equal inputs, else
    every left line removed and every right line added. *)
Definition naive_diff (a b : list text) (_from _to : string) : list text :=
  if decide (a = b) then []
  else map (cons 45) a ++ map (cons 43) b.

Definition services0 (f : stmt -> option fault) : services :=
  {| parse_uuid := parse_decimal;
     gen_random_uuid := fun d => 100 + N.of_nat (length (document_versions d));
     current_timestamp := 2026;
     chunk_document := whole_chunk;
     embed_chunks := constant_embedding;
     unified_diff := naive_diff;
     faults := f |}.

Definition no_faults : stmt -> option fault := fun _ => None.

(** The server rejects the first chunk insert, after the old chunks have
    been deleted. *)
Definition first_insert_fails (s : stmt) : option fault :=
  match s with
  | InsertChunk 0 => Some ServerFault
  | _ => None
  end.

(** The document update fails, after everything else has been written. *)
Definition update_fails (s : stmt) : option fault :=
  match s with
  | UpdateDocument => Some ClientFault
  | _ => None
  end.

Definition doc7 : document :=
  {| doc_title := "Manual"; doc_source := Some "manual.txt";
     doc_content := Some (text_of_string "old");
     doc_metadata := Some {[ "version" := JStr "1.0" ]};
     doc_updated_at := 2025 |}.

Definition old_chunk : chunk_row :=
  {| chunk_document_id := 7; chunk_content := text_of_string "old";
     chunk_embedding := None; chunk_index := 0%Z; chunk_metadata := ∅;
     chunk_token_count := None |}.

(** Document 7 at version 1.0 with one chunk and no history. *)
Definition db0 : db :=
  {| documents := {[ 7 := doc7 ]};
     chunks := [old_chunk];
     document_versions := [] |}.

(** The tables after one upload to document 7. *)
Definition db1 : db :=
  (upload_new_version (services0 no_faults) "7" None
     {| filename := Some "manual-v2.txt"; content_type := Some "text/plain";
        read := inr [x6e; x65; x77] |}
     "fix typo" "minor" None db0).2.

(** The bytes of "new". *)
Definition file_new : UploadFile :=
  {| filename := Some "manual-v2.txt"; content_type := Some "text/plain";
     read := inr [x6e; x65; x77] |}.

(** 0xE9 alone is not UTF-8. *)
Definition file_latin : UploadFile :=
  {| filename := Some "cafe.txt"; content_type := Some "text/plain";
     read := inr [x63; x61; x66; xe9] |}.

End Fixture.


(** ** The version rules in the words of the specification *)

Module VersionSpec.








End VersionSpec.

(** ** A small OCR installation for concrete runs *)

Module OcrFixture.
Import Ocr.

Definition scan : image := {| mode := "RGBA"; pixels := 1 |}.
Definition blank : image := {| mode := "L"; pixels := 0 |}.

(** Every language is installed; a blank page reads as white space. *)
Definition reads_all (img : image) (_lang : string) : recognition :=
  if Nat.eqb (pixels img) 0 then Recognized "   " else Recognized " Hello ".

(** The Vietnamese pack is missing, English works, anything else hits a
    missing binary. *)
Definition english_only (img : image) (lang : string) : recognition :=
  if String.eqb lang "vie+eng" then
    TesseractError "Failed loading language 'vie'"
  else if String.eqb lang "eng" then reads_all img lang
  else TesseractNotFoundError.

(** No Tesseract binary on the machine. *)
Definition no_binary (_img : image) (_lang : string) : recognition :=
  TesseractNotFoundError.

Definition env0 (recognizer : image -> string -> recognition)
    (pages : option (list page_text)) : env :=
  {| pytesseract_installed := true;
     Image_installed := true;
     convert_from_path_installed := true;
     PdfReader_installed := true;
     _DEFAULT_LANG := "vie+eng";
     _FALLBACK_LANG := "eng";
     _PDF_DPI := 300;
     path_exists := fun _ => true;
     path_name := fun p => p;
     Image_open := fun p => if String.eqb p "blank.png" then blank else scan;
     PdfReader_pages := fun _ => pages;
     convert_from_path := fun _ _ => [scan; blank];
     image_to_string := recognizer |}.

End OcrFixture.

(** ** What a run of the extraction may end in *)

Module OcrOutcome.
Import Ocr.

(** A step inside [extract_text] never raises [FileNotFoundError]. *)
Definition no_file_error {A} (m : M A) : Prop :=
  match m with
  | (_, inl (FileNotFoundError _)) => False
  | _ => True
  end.


End OcrOutcome.

(** ** The tables after a re-indexing *)

Module Reindex.
Import Api.

(** The chunk table once the chunks of document [id] have been replaced by
    the rows of [embedded]. *)
Definition replaced_chunks (id : N) (embedded : list DocumentChunk) (d : db)
    : list chunk_row :=
  filter (fun c => chunk_document_id c ≠ id) (chunks d)
  ++ map (chunk_row_of id) embedded.

(** The document table once row [id] carries content [c] and metadata [m]. *)
Definition updated_documents (S : services) (id : N) (c : text) (m : metadata)
    (d : db) : gmap N document :=
  alter (fun doc => {| doc_title := doc_title doc;
                       doc_source := doc_source doc;
                       doc_content := Some c;
                       doc_metadata := Some m;
                       doc_updated_at := current_timestamp S |})
        id (documents d).

(** All the effects of a successful [upload_new_version] that answers [nv]:
    the chunks replaced, at most one baseline row [bl] and the new snapshot
    appended to the history, the document row updated. *)
Definition upload_applied (S : services) (document_id : string)
    (created_by : option N) (file : UploadFile) (change_summary bump : string)
    (version : option string) (d d' : db) (nv : string) : Prop :=
  exists id doc raw new_content cv' bl chs embedded,
    parse_uuid S document_id = Some id
    /\ documents d !! id = Some doc
    /\ read_new_content file = inr (raw, new_content)
    /\ let meta := default ∅ (doc_metadata doc) in
       let cv := get meta "version" in
       let m := new_metadata meta nv file raw in
       let source :=
         str_or (doc_source doc) (str_or (filename file) "uploaded") in
       (cv' = cv \/ (truthy cv = false /\ cv' = JStr (prev_ver cv)))
       /\ nv = new_version version cv' bump
       /\ (bl = []
           \/ (has_version id (prev_ver cv) d = false
               /\ bl = [baseline_row S id doc meta (prev_ver cv) created_by d]))
       /\ (faults S SelectBaseline = None -> faults S InsertBaseline = None ->
           has_version id (prev_ver cv) d = false -> bl ≠ [])
       /\ chunk_document S new_content (doc_title doc) source m = Some chs
       /\ embed_chunks S chs = Some embedded
       /\ chunks d' = replaced_chunks id embedded d
       /\ document_versions d'
          = document_versions d ++ bl
            ++ [snapshot_row S id nv change_summary new_content m file raw
                  created_by
                  {| documents := documents d;
                     chunks := replaced_chunks id embedded d;
                     document_versions := document_versions d ++ bl |}]
       /\ documents d' = updated_documents S id new_content m d.

(** All the effects of a successful [rollback_version] to the snapshot
    [ver]: the chunks replaced, the document row restored, the history
    untouched. *)
Definition rollback_applied (S : services) (document_id version_id : string)
    (d d' : db) (ver : version_row) : Prop :=
  exists did vid doc chs embedded,
    parse_uuid S document_id = Some did
    /\ parse_uuid S version_id = Some vid
    /\ find_version did vid d = Some ver
    /\ documents d !! did = Some doc
    /\ let old_content := default [] (ver_content ver) in
       let m := default ∅ (ver_metadata ver) in
       chunk_document S old_content (doc_title doc)
         (str_or (doc_source doc) "rollback") m = Some chs
       /\ embed_chunks S chs = Some embedded
       /\ chunks d' = replaced_chunks did embedded d
       /\ document_versions d' = document_versions d
       /\ documents d' = updated_documents S did old_content m d.

End Reindex.

(** ** Histories over a run of versioning calls *)

Module History.
Import Api.

(** The version a row stands for agrees with the metadata it stores. *)
Definition row_consistent (row : version_row) : Prop :=
  ver_version row = prev_ver (get (default ∅ (ver_metadata row)) "version").

(** Every history row of document [id] is consistent. *)
Definition history_consistent (id : N) (d : db) : Prop :=
  forall row, row ∈ document_versions d -> ver_document_id row = id ->
              row_consistent row.

(** The current version of document [id] has a row in its history. *)
Definition current_recorded (id : N) (d : db) : Prop :=
  forall doc, documents d !! id = Some doc ->
    has_version id (prev_ver (get (default ∅ (doc_metadata doc)) "version")) d
    = true.

(** The history rows of document [id]. *)
Definition rows_of (id : N) (d : db) : list version_row :=
  filter (fun row => ver_document_id row = id) (document_versions d).

(** [versioning_run id d n d']: a sequence of successful versioning calls,
    on any documents, leads from [d] to [d']; [n] of them are uploads to
    document [id].  (A failed call changes nothing and is left out.) *)
Inductive versioning_run (id : N) (d : db) : nat -> db -> Prop :=
| run_start : versioning_run id d 0 d
| run_upload n d1 d2 Sv document_id created_by file change_summary bump
    version nv :
    versioning_run id d n d1 ->
    parse_uuid Sv document_id = Some id ->
    upload_new_version Sv document_id created_by file change_summary bump
      version d1 = (inr nv, d2) ->
    versioning_run id d (Datatypes.S n) d2
| run_rollback n d1 d2 Sv document_id version_id v :
    versioning_run id d n d1 ->
    parse_uuid Sv document_id = Some id ->
    rollback_version Sv document_id version_id d1 = (inr v, d2) ->
    versioning_run id d n d2
| run_upload_other n d1 d2 Sv document_id other created_by file change_summary
    bump version nv :
    versioning_run id d n d1 ->
    parse_uuid Sv document_id = Some other -> other ≠ id ->
    upload_new_version Sv document_id created_by file change_summary bump
      version d1 = (inr nv, d2) ->
    versioning_run id d n d2
| run_rollback_other n d1 d2 Sv document_id other version_id v :
    versioning_run id d n d1 ->
    parse_uuid Sv document_id = Some other -> other ≠ id ->
    rollback_version Sv document_id version_id d1 = (inr v, d2) ->
    versioning_run id d n d2.

End History.

(** ** Password verification ([db_utils.py], 85-145) *)

Module DbUtils.

(** The two hashing collaborators. *)
Record crypto := {
  (** [_sha256]: [hashlib.sha256(password.encode("utf-8")).hexdigest()] *)
  _sha256 : string -> string;
  (** [bcrypt.checkpw(password, stored_hash)]; [None] when bcrypt cannot be
      imported or raises *)
  bcrypt_checkpw : string -> string -> option bool
}.

(** [c in "0123456789abcdef"] *)
Definition is_lower_hex (c : ascii) : bool :=
  let n := PyStr.code c in
  ((48 <=? n) && (n <=? 57)) || ((97 <=? n) && (n <=? 102)).

(** [s.startswith(p)] *)
Fixpoint startswith (p s : string) : bool :=
  match p, s with
  | EmptyString, _ => true
  | String a p', String b s' => Ascii.eqb a b && startswith p' s'
  | String _ _, EmptyString => false
  end.

(** [stored_hash] is [None] for a NULL column. *)
Definition verify_password (K : crypto) (password : string)
    (stored_hash : option string) : bool :=
  match stored_hash with
  | None | Some EmptyString => false
  | Some stored_hash =>
      if startswith "$2" stored_hash then
        default false (bcrypt_checkpw K password stored_hash)
      else if Nat.eqb (String.length stored_hash) 64
              && PyStr.forallb_str is_lower_hex (PyStr.lower stored_hash)
      then String.eqb (_sha256 K password) stored_hash
      else String.eqb password stored_hash
  end.

(** A digest function with a fixed, well-formed answer, for concrete runs. *)
Definition toy_crypto : crypto :=
  {| _sha256 := fun _ =>
       "9f86d081884c7d659a2feaa0c55ad015a3bf4f1b2b0b822cd15d6c15b0f00a08";
     bcrypt_checkpw := fun _ _ => None |}.

End DbUtils.

(* ===================================================================== *)
(** * Part II.  Properties                                                 *)
(* ===================================================================== *)

(** ** Facts about the string primitives *)

Module PyStrFacts.
Import PyStr.

Lemma forallb_str_app p a b :
  forallb_str p (a +:+ b) = forallb_str p a && forallb_str p b.
Proof.
  induction a as [|c a IH]; simpl; [done|].
  rewrite IH. by destruct (p c).
Qed.


Lemma version_char_not_space c : version_char c = true -> isspace c = false.
Proof.
  destruct c as [[] [] [] [] [] [] [] []]; vm_compute; congruence.
Qed.












Lemma string_of_uint_decimal d :
  forallb_str isdecimal (NilEmpty.string_of_uint d) = true.
Proof. induction d; simpl; auto. Qed.

Lemma str_N_decimal n : forallb_str isdecimal (str_N n) = true.
Proof. apply string_of_uint_decimal. Qed.

Lemma str_N_nonempty n : nonempty (str_N n) = true.
Proof.
  unfold str_N. destruct n as [|p]; [done|].
  simpl. pose proof (DecimalPos.Unsigned.to_uint_nonnil p) as Hp.
  by destruct (Pos.to_uint p).
Qed.




End PyStrFacts.

(** ** Version parsing and bumping *)

Module VersionFacts.
Import PyStr PyStrFacts VersionSpec.


















End VersionFacts.




(** ** Decoding the uploaded file *)

Module DecodeFacts.
Import PyText.

(** latin-1 decodes every byte, whatever the error mode. *)
Lemma decode_latin_1_total e raw :
  decode_latin_1 e raw = Some (map Byte.to_N raw).
Proof.
  unfold decode_latin_1. induction raw as [|b raw IH]; simpl; [done|].
  by rewrite IH.
Qed.

Lemma read_new_content_ok fn ct raw :
  Api.read_new_content
    {| Api.filename := fn; Api.content_type := ct; Api.read := inr raw |}
  = inr (raw, default (map Byte.to_N raw) (decode_utf8 raw)).
Proof.
  unfold Api.read_new_content. simpl.
  destruct (decode_utf8 raw); [done|]. by rewrite decode_latin_1_total.
Qed.

End DecodeFacts.

(** C10.  Decoding the uploaded bytes is total: bytes that are not valid
    UTF-8 are decoded as latin-1, one character per byte, so once the file
    has been read the "Failed to read file" branch is never taken and the
    upload goes on into its transaction with the decoded text; a file that
    is not UTF-8 is accepted. *)
Theorem upload_decoding_total :
  (forall e raw, PyText.decode_latin_1 e raw = Some (map Byte.to_N raw))
  /\ (forall fn ct raw,
        Api.read_new_content
          {| Api.filename := fn; Api.content_type := ct; Api.read := inr raw |}
        = inr (raw, default (map Byte.to_N raw) (PyText.decode_utf8 raw)))
  /\ (forall S document_id created_by fn ct raw change_summary bump version d,
        let file :=
          {| Api.filename := fn; Api.content_type := ct; Api.read := inr raw |} in
        Api.upload_new_version S document_id created_by file change_summary
          bump version d
        = if negb (PyStr.nonempty change_summary)
             || negb (PyStr.nonempty (PyStr.strip change_summary))
          then (inl (Api.HTTPException 400 "change_summary is required"), d)
          else Api.transaction
                 (Api.upload_body S document_id created_by file raw
                    (default (map Byte.to_N raw) (PyText.decode_utf8 raw))
                    change_summary bump version) d)
  /\ PyText.decode_utf8 [x63; x61; x66; xe9] = None
  /\ (let r := Api.upload_new_version (Fixture.services0 Fixture.no_faults) "7"
                 None Fixture.file_latin "accents" "minor" None Fixture.db0 in
      r.1 = inr "1.1"
      /\ Api.doc_content <$> Api.documents r.2 !! 7
         = Some (Some [99; 97; 102; 233])).
Proof.
  split; [exact DecodeFacts.decode_latin_1_total|].
  split; [exact DecodeFacts.read_new_content_ok|].
  split.
  - intros S document_id created_by fn ct raw change_summary bump version d file.
    unfold Api.upload_new_version.
    destruct (negb (PyStr.nonempty change_summary)
              || negb (PyStr.nonempty (PyStr.strip change_summary))); [done|].
    unfold file. by rewrite DecodeFacts.read_new_content_ok.
  - split; [reflexivity|]. split; vm_compute; reflexivity.
Qed.

(** ** Trimming *)

Module StripFacts.
Import PyStr PyStrFacts.

Lemma rstrip_nonempty s :
  nonempty (rstrip s) = negb (forallb_str isspace s).
Proof.
  induction s as [|c s IH]; simpl; [done|].
  destruct (rstrip s) eqn:Hr; simpl in *.
  - apply (f_equal negb) in IH. rewrite negb_involutive in IH. simpl in IH.
    rewrite <- IH, andb_true_r. by destruct (isspace c).
  - apply (f_equal negb) in IH. rewrite negb_involutive in IH. simpl in IH.
    by rewrite <- IH, andb_false_r.
Qed.

Lemma lstrip_allspace s :
  forallb_str isspace (lstrip s) = forallb_str isspace s.
Proof.
  induction s as [|c s IH]; simpl; [done|].
  destruct (isspace c) eqn:Hc; simpl; [done|]. by rewrite Hc.
Qed.


(** Trimming leaves something exactly when some character is not white
    space. *)
Lemma strip_nonempty s :
  nonempty (strip s) = negb (forallb_str isspace s).
Proof. unfold strip. by rewrite rstrip_nonempty, lstrip_allspace. Qed.


Lemma rstrip_cons c r :
  isspace c = false -> rstrip (String c r) = String c (rstrip r).
Proof. intros Hc. simpl. rewrite Hc. by destruct (rstrip r). Qed.

Lemma rstrip_idem s : rstrip (rstrip s) = rstrip s.
Proof.
  induction s as [|c s IH]; simpl; [done|].
  destruct (rstrip s) as [|c' r'] eqn:Hr.
  - destruct (isspace c) eqn:Hc; simpl; [done|]. by rewrite Hc.
  - change (rstrip (String c (String c' r'))) with
      (match rstrip (String c' r') with
       | EmptyString => if isspace c then EmptyString else String c EmptyString
       | r'' => String c r''
       end).
    by rewrite IH.
Qed.

Lemma lstrip_head s :
  lstrip s = EmptyString
  \/ exists c r, lstrip s = String c r /\ isspace c = false.
Proof.
  induction s as [|c s IH]; simpl; [by left|].
  destruct (isspace c) eqn:Hc; [done|]. right. eauto.
Qed.

Lemma strip_idem s : strip (strip s) = strip s.
Proof.
  unfold strip. destruct (lstrip_head s) as [->|(c & r & -> & Hc)]; [done|].
  rewrite (rstrip_cons _ _ Hc). simpl lstrip. rewrite Hc.
  by rewrite (rstrip_cons _ _ Hc), rstrip_idem.
Qed.


End StripFacts.

(** ** The recognition attempt loop *)

Module OcrFacts.
Import Ocr.

Lemma bind_log {A} ev (k : M A) :
  bind (log ev) (fun _ => k) = (ev :: k.1, k.2).
Proof. unfold bind, log. by destruct k. Qed.

(** A prefix of candidates that all fail with [TesseractError] is walked
    through, each one tried once and its reason appended. *)
Lemma loop_failures E img pre excs rest errors :
  Forall2 (fun l exc => image_to_string E img l = TesseractError exc) pre excs ->
  _run_tesseract_loop E img (pre ++ rest) errors
  = (map (Recognize img) pre
       ++ (_run_tesseract_loop E img rest
             (errors ++ zip_with error_msg pre excs)).1,
     (_run_tesseract_loop E img rest
        (errors ++ zip_with error_msg pre excs)).2).
Proof.
  intros H. revert errors.
  induction H as [|l exc pre excs Hl _ IH]; intros errors.
  - simpl. rewrite app_nil_r. by destruct (_run_tesseract_loop E img rest errors).
  - cbn [_run_tesseract_loop app]. rewrite bind_log, Hl, IH. simpl.
    by rewrite <- app_assoc.
Qed.

Lemma loop_success E img pre excs lang out post :
  Forall2 (fun l exc => image_to_string E img l = TesseractError exc) pre excs ->
  image_to_string E img lang = Recognized out ->
  _run_tesseract_loop E img (pre ++ lang :: post) []
  = (map (Recognize img) (pre ++ [lang]), inr (PyStr.strip out, lang)).
Proof.
  intros Hpre Hl. rewrite (loop_failures _ _ _ _ _ _ Hpre).
  cbn [_run_tesseract_loop]. rewrite bind_log, Hl. simpl. by rewrite map_app.
Qed.

Lemma loop_not_found E img pre excs lang post :
  Forall2 (fun l exc => image_to_string E img l = TesseractError exc) pre excs ->
  image_to_string E img lang = TesseractNotFoundError ->
  _run_tesseract_loop E img (pre ++ lang :: post) []
  = (map (Recognize img) (pre ++ [lang]), inl (OCRError not_found_msg)).
Proof.
  intros Hpre Hl. rewrite (loop_failures _ _ _ _ _ _ Hpre).
  cbn [_run_tesseract_loop]. rewrite bind_log, Hl. simpl. by rewrite map_app.
Qed.

Lemma loop_exhausted E img pre excs :
  Forall2 (fun l exc => image_to_string E img l = TesseractError exc) pre excs ->
  _run_tesseract_loop E img pre []
  = (map (Recognize img) pre,
     inl (OCRError ("Tesseract failed for all language candidates: "
                    +:+ PyStr.join "; " (zip_with error_msg pre excs)))).
Proof.
  intros Hpre. rewrite <- (app_nil_r pre) at 1.
  rewrite (loop_failures _ _ _ _ _ _ Hpre). simpl. by rewrite app_nil_r.
Qed.

End OcrFacts.

(** C8.  With the engine installed, [_run_tesseract] tries the candidate
    languages in order.  When the candidates before [lang] all fail with an
    engine error: if [lang] is recognized it wins, the trimmed text and
    [lang] are returned and no later candidate is tried; if the recognizer
    reports a missing installation at [lang] the loop raises [OCRError] at
    once and no later candidate is tried; and when every candidate fails,
    the [OCRError] raised carries the failure reason of each attempted
    language, in order, joined by "; ". *)
Theorem run_tesseract_attempts E img pre excs :
  Ocr.pytesseract_installed E = true ->
  Forall2 (fun l exc =>
             Ocr.image_to_string E (Ocr.prepared img) l = Ocr.TesseractError exc)
          pre excs ->
  (forall lang out post,
     Ocr.image_to_string E (Ocr.prepared img) lang = Ocr.Recognized out ->
     Ocr._run_tesseract E img (pre ++ lang :: post)
     = (map (Ocr.Recognize (Ocr.prepared img)) (pre ++ [lang]),
        inr (PyStr.strip out, lang)))
  /\ (forall lang post,
        Ocr.image_to_string E (Ocr.prepared img) lang = Ocr.TesseractNotFoundError ->
        Ocr._run_tesseract E img (pre ++ lang :: post)
        = (map (Ocr.Recognize (Ocr.prepared img)) (pre ++ [lang]),
           inl (Ocr.OCRError Ocr.not_found_msg)))
  /\ Ocr._run_tesseract E img pre
     = (map (Ocr.Recognize (Ocr.prepared img)) pre,
        inl (Ocr.OCRError
               ("Tesseract failed for all language candidates: "
                +:+ PyStr.join "; " (zip_with Ocr.error_msg pre excs)))).
Proof.
  intros Hinst Hpre. unfold Ocr._run_tesseract. rewrite Hinst. simpl.
  split; [|split].
  - intros lang out post Hl. by eapply OcrFacts.loop_success.
  - intros lang post Hl. by eapply OcrFacts.loop_not_found.
  - by apply OcrFacts.loop_exhausted.
Qed.

Lemma run_tesseract_attempts_witness :
  let E := OcrFixture.env0 OcrFixture.english_only None in
  Ocr.pytesseract_installed E = true
  /\ Ocr._run_tesseract E OcrFixture.scan ["vie+eng"; "eng"; "fra"]
     = ([Ocr.Recognize (Ocr.prepared OcrFixture.scan) "vie+eng";
         Ocr.Recognize (Ocr.prepared OcrFixture.scan) "eng"],
        inr ("Hello", "eng"))
  /\ Ocr._run_tesseract E OcrFixture.scan ["vie+eng"; "fra"; "eng"]
     = ([Ocr.Recognize (Ocr.prepared OcrFixture.scan) "vie+eng";
         Ocr.Recognize (Ocr.prepared OcrFixture.scan) "fra"],
        inl (Ocr.OCRError Ocr.not_found_msg))
  /\ Ocr._run_tesseract E OcrFixture.scan ["vie+eng"]
     = ([Ocr.Recognize (Ocr.prepared OcrFixture.scan) "vie+eng"],
        inl (Ocr.OCRError
               "Tesseract failed for all language candidates: lang='vie+eng' -> Failed loading language 'vie'")).
Proof.
  intros E.
  assert (Forall2 (fun l exc =>
             Ocr.image_to_string E (Ocr.prepared OcrFixture.scan) l
             = Ocr.TesseractError exc)
            ["vie+eng"] ["Failed loading language 'vie'"]) as Hpre.
  { constructor; [reflexivity | constructor]. }
  pose proof (run_tesseract_attempts E OcrFixture.scan ["vie+eng"]
                ["Failed loading language 'vie'"] eq_refl Hpre) as (H1 & H2 & H3).
  split; [reflexivity|]. split; [|split].
  - exact (H1 "eng" " Hello " ["fra"] eq_refl).
  - exact (H2 "fra" ["eng"] eq_refl).
  - exact H3.
Defined.

(** ** Extraction from PDFs and images *)

Module ExtractFacts.
Import Ocr.







End ExtractFacts.



(** ** Outcomes of [extract_text] *)

Module OutcomeFacts.
Import Ocr OcrOutcome.








End OutcomeFacts.



(** ** The transaction monad *)

Module TxFacts.
Import Api.

Lemma bind_inr {A B} (m : T A) (k : A -> T B) st b st' :
  bind m k st = (inr b, st') ->
  exists a st1, m st = (inr a, st1) /\ k a st1 = (inr b, st').
Proof.
  unfold bind. destruct (m st) as [[e|a] st1]; [done|]. eauto.
Qed.

Lemma bind_ok {A B} (m : T A) (k : A -> T B) st a st1 :
  m st = (inr a, st1) -> bind m k st = k a st1.
Proof. unfold bind. by intros ->. Qed.

(** An exception inside a transaction leaves the tables as they were. *)
Lemma transaction_inl {A} (body : T A) d e d' :
  transaction body d = (inl e, d') -> d' = d.
Proof.
  unfold transaction. destruct (body _) as [[e'|a] st]; by intros [= _ <-].
Qed.

Lemma transaction_inr {A} (body : T A) d a d' :
  transaction body d = (inr a, d') ->
  exists st, body {| tx_db := d; tx_failed := false |} = (inr a, st)
             /\ d' = if tx_failed st then d else tx_db st.
Proof.
  unfold transaction. destruct (body _) as [[e'|a'] st]; [done|].
  intros [= <- <-]. eauto.
Qed.

Section Statements.
Variable S : services.

Lemma statement_inr {A} s (f : db -> A * db) st a st' :
  statement S s f st = (inr a, st') ->
  tx_failed st = false /\ faults S s = None
  /\ f (tx_db st) = (a, tx_db st') /\ tx_failed st' = false.
Proof.
  unfold statement. destruct (tx_failed st); [done|].
  destruct (faults S s) as [[]|]; try done.
  destruct (f (tx_db st)) as [a0 d0]. by intros [= <- <-].
Qed.

Lemma statement_ok {A} s (f : db -> A * db) st :
  tx_failed st = false -> faults S s = None ->
  statement S s f st
  = (inr (f (tx_db st)).1, {| tx_db := (f (tx_db st)).2; tx_failed := false |}).
Proof.
  intros Hf Hs. unfold statement. rewrite Hf, Hs. by destruct (f (tx_db st)).
Qed.

Lemma uuid_arg_inr s st u st' :
  uuid_arg S s st = (inr u, st') -> parse_uuid S s = Some u /\ st' = st.
Proof.
  unfold uuid_arg. destruct (parse_uuid S s); [|done]. by intros [= <- <-].
Qed.

Lemma call_inr {A} (r : option A) e st a st' :
  call r e st = (inr a, st') -> r = Some a /\ st' = st.
Proof. destruct r; [|done]. by intros [= <- <-]. Qed.

(** The insert loop appends the rows of the chunks, in order. *)
Lemma insert_chunks_inr id chs i st st' u :
  insert_chunks S id chs i st = (inr u, st') ->
  tx_failed st = false ->
  tx_failed st' = false
  /\ documents (tx_db st') = documents (tx_db st)
  /\ chunks (tx_db st') = chunks (tx_db st) ++ map (chunk_row_of id) chs
  /\ document_versions (tx_db st') = document_versions (tx_db st).
Proof.
  revert i st. induction chs as [|ch rest IH]; intros i st; simpl.
  - destruct u. unfold ret. intros [= <-] Hf. by rewrite app_nil_r.
  - intros (a & st1 & (_ & _ & Hst1 & Hf1)%statement_inr & Hrest)%bind_inr Hf.
    injection Hst1 as _ Hdb.
    destruct (IH _ _ Hrest Hf1) as (Hf' & Hd & Hc & Hv).
    rewrite Hf', Hd, Hc, Hv, <- Hdb. simpl.
    by rewrite <- app_assoc.
Qed.

Lemma replace_chunks_inr id chs st st' u :
  replace_chunks S id chs st = (inr u, st') ->
  tx_failed st = false /\ tx_failed st' = false
  /\ documents (tx_db st') = documents (tx_db st)
  /\ chunks (tx_db st')
     = filter (fun c => chunk_document_id c ≠ id) (chunks (tx_db st))
       ++ map (chunk_row_of id) chs
  /\ document_versions (tx_db st') = document_versions (tx_db st).
Proof.
  unfold replace_chunks.
  intros (a & st1 & (Hf & _ & Hst1 & Hf1)%statement_inr & Hrest)%bind_inr.
  injection Hst1 as _ Hdb.
  destruct (insert_chunks_inr _ _ _ _ _ _ Hrest Hf1) as (Hf' & Hd & Hc & Hv).
  rewrite Hf', Hd, Hc, Hv, <- Hdb. done.
Qed.

Lemma insert_version_inr row s st st' u :
  insert_version S row s st = (inr u, st') ->
  tx_failed st = false /\ tx_failed st' = false /\ faults S s = None
  /\ documents (tx_db st') = documents (tx_db st)
  /\ chunks (tx_db st') = chunks (tx_db st)
  /\ document_versions (tx_db st')
     = document_versions (tx_db st) ++ [row (tx_db st)].
Proof.
  unfold insert_version.
  intros (Hf & Hs & Hst1 & Hf1)%statement_inr. injection Hst1 as _ Hdb.
  by rewrite <- Hdb.
Qed.

Lemma update_document_inr id c m st st' u :
  update_document S id c m st = (inr u, st') ->
  tx_failed st = false /\ tx_failed st' = false
  /\ documents (tx_db st')
     = alter (fun doc => {| doc_title := doc_title doc;
                            doc_source := doc_source doc;
                            doc_content := Some c;
                            doc_metadata := Some m;
                            doc_updated_at := current_timestamp S |})
             id (documents (tx_db st))
  /\ chunks (tx_db st') = chunks (tx_db st)
  /\ document_versions (tx_db st') = document_versions (tx_db st).
Proof.
  unfold update_document.
  intros (Hf & Hs & Hst1 & Hf1)%statement_inr. injection Hst1 as _ Hdb.
  by rewrite <- Hdb.
Qed.

Lemma get_document_core_inr document_id st doc st' :
  _get_document_core S document_id st = (inr doc, st') ->
  exists id, parse_uuid S document_id = Some id
             /\ tx_failed st = false /\ tx_failed st' = false
             /\ tx_db st' = tx_db st
             /\ doc = documents (tx_db st) !! id.
Proof.
  unfold _get_document_core.
  intros (id & st1 & (Hid & ->)%uuid_arg_inr & Hst)%bind_inr.
  apply statement_inr in Hst as (Hf & _ & Hst1 & Hf1).
  injection Hst1 as Hdoc Hdb. eauto 10.
Qed.

End Statements.

End TxFacts.

(** ** The two re-indexing endpoints, step by step *)

Module ReindexFacts.
Import Api Reindex TxFacts.

Section Steps.
Variable S : services.

(** The baseline step always hands control back: it appends the baseline
    row when the lookup ran and found no row for the current version, and
    appends nothing otherwise. *)
Lemma ensure_baseline_spec id doc meta cv created_by st :
  exists cv' st',
    ensure_baseline S id doc meta cv created_by st = (inr cv', st')
    /\ documents (tx_db st') = documents (tx_db st)
    /\ chunks (tx_db st') = chunks (tx_db st)
    /\ (cv' = cv \/ (truthy cv = false /\ cv' = JStr (prev_ver cv)))
    /\ (document_versions (tx_db st') = document_versions (tx_db st)
        \/ (has_version id (prev_ver cv) (tx_db st) = false
            /\ document_versions (tx_db st')
               = document_versions (tx_db st)
                 ++ [baseline_row S id doc meta (prev_ver cv) created_by (tx_db st)]))
    /\ (tx_failed st = false -> faults S SelectBaseline = None ->
        faults S InsertBaseline = None ->
        has_version id (prev_ver cv) (tx_db st) = false ->
        tx_failed st' = false
        /\ document_versions (tx_db st')
           = document_versions (tx_db st)
             ++ [baseline_row S id doc meta (prev_ver cv) created_by (tx_db st)]).
Proof.
  unfold ensure_baseline, try_except, bind, insert_version, statement, ret.
  destruct (tx_failed st) eqn:Hf; simpl.
  { eexists _, _. split; [done|]. repeat split; auto; congruence. }
  destruct (faults S SelectBaseline) as [[]|] eqn:Hs; simpl.
  1,2: eexists _, _; split; [done|]; repeat split; auto; congruence.
  destruct (has_version id (prev_ver cv) (tx_db st)) eqn:Hh; simpl.
  { eexists _, _. split; [done|]. repeat split; auto; congruence. }
  destruct (faults S InsertBaseline) as [[]|] eqn:Hi; simpl.
  1,2: eexists _, _; split; [done|]; repeat split; auto; congruence.
  eexists _, _. split; [done|]. simpl. repeat split; auto.
  destruct (truthy cv); simpl; auto.
Qed.

(** What a successful run of the upload transaction has done. *)
Lemma upload_body_inr document_id created_by file raw new_content
    change_summary bump version d nv st' :
  read_new_content file = inr (raw, new_content) ->
  upload_body S document_id created_by file raw new_content change_summary
    bump version {| tx_db := d; tx_failed := false |} = (inr nv, st') ->
  tx_failed st' = false
  /\ upload_applied S document_id created_by file change_summary bump version
       d (tx_db st') nv.
Proof.
  intros Hread. unfold upload_body.
  intros (doc & st1 & Hdoc & Hk)%bind_inr.
  apply get_document_core_inr in Hdoc as (id & Hid & _ & Hf1 & Hdb1 & Hdoc).
  simpl in Hdb1, Hdoc. destruct doc as [doc|]; [|done]. symmetry in Hdoc.
  apply bind_inr in Hk as (id' & st2 & (Hid' & ->)%uuid_arg_inr & Hk).
  assert (id' = id) as -> by congruence.
  apply bind_inr in Hk as (cv' & st3 & Hbase & Hk).
  destruct (ensure_baseline_spec id doc (default ∅ (doc_metadata doc))
              (get (default ∅ (doc_metadata doc)) "version") created_by st1)
    as (cv'' & st3' & Hbase' & Hd3 & Hc3 & Hcv & Hv3 & Hgood).
  specialize (Hgood Hf1). rewrite Hdb1 in Hgood.
  rewrite Hbase in Hbase'. injection Hbase' as <- <-.
  apply bind_inr in Hk as (chs & st4 & (Hchunk & ->)%call_inr & Hk).
  apply bind_inr in Hk as (embedded & st5 & (Hembed & ->)%call_inr & Hk).
  apply bind_inr in Hk as ([] & st6 & Hrep & Hk).
  apply replace_chunks_inr in Hrep as (Hf3 & Hf6 & Hd6 & Hc6 & Hv6).
  apply bind_inr in Hk as ([] & st7 & Hins & Hk).
  apply insert_version_inr in Hins as (_ & Hf7 & _ & Hd7 & Hc7 & Hv7).
  apply bind_inr in Hk as ([] & st8 & Hupd & Hk).
  apply update_document_inr in Hupd as (_ & Hf8 & Hd8 & Hc8 & Hv8).
  unfold ret in Hk. injection Hk as <- <-.
  split; [done|].
  rewrite Hdb1 in *.
  assert (tx_db st6 = {| documents := documents d;
                         chunks := replaced_chunks id embedded d;
                         document_versions := document_versions (tx_db st3) |})
    as Hst6.
  { destruct (tx_db st6). simpl in *. unfold replaced_chunks.
    by rewrite Hd6, Hc6, Hv6, Hd3, Hc3. }
  exists id, doc, raw, new_content, cv'.
  destruct Hv3 as [Hv3|[Hh Hv3]].
  - exists [], chs, embedded.
    split; [done|]. split; [done|]. split; [done|]. cbv zeta.
    split; [done|]. split; [done|]. split; [by left|].
    split.
    { intros Hs Hi Hh. destruct (Hgood Hs Hi Hh) as [_ Hv3'].
      rewrite Hv3 in Hv3'. apply (f_equal length) in Hv3'.
      rewrite length_app in Hv3'. simpl in Hv3'. lia. }
    split; [done|]. split; [done|].
    split. { by rewrite Hc8, Hc7, Hc6, Hc3. }
    split. { by rewrite Hv8, Hv7, Hv6, Hst6, Hv3, app_nil_r. }
    unfold updated_documents. by rewrite Hd8, Hd7, Hd6, Hd3.
  - eexists [_], chs, embedded.
    split; [done|]. split; [done|]. split; [done|]. cbv zeta.
    split; [done|]. split; [done|]. split; [by right|].
    split; [done|]. split; [done|]. split; [done|].
    split. { by rewrite Hc8, Hc7, Hc6, Hc3. }
    split. { by rewrite Hv8, Hv7, Hv6, Hst6, Hv3, <- app_assoc. }
  unfold updated_documents. by rewrite Hd8, Hd7, Hd6, Hd3.
Qed.

Lemma upload_inr document_id created_by file change_summary bump version d nv d' :
  upload_new_version S document_id created_by file change_summary bump
    version d = (inr nv, d') ->
  upload_applied S document_id created_by file change_summary bump version
    d d' nv.
Proof.
  unfold upload_new_version.
  destruct (negb _ || negb _); [done|].
  destruct (read_new_content file) as [e|[raw new_content]] eqn:Hread; [done|].
  intros (st & Hbody & ->)%transaction_inr.
  apply (upload_body_inr _ _ _ _ _ _ _ _ _ _ _ Hread) in Hbody as [-> H].
  exact H.
Qed.

Lemma upload_inl document_id created_by file change_summary bump version d e d' :
  upload_new_version S document_id created_by file change_summary bump
    version d = (inl e, d') ->
  d' = d.
Proof.
  unfold upload_new_version.
  destruct (negb _ || negb _); [by intros [= _ <-]|].
  destruct (read_new_content file) as [e'|[raw new_content]];
    [by intros [= _ <-]|].
  apply transaction_inl.
Qed.

Lemma rollback_body_inr document_id version_id d v st' :
  rollback_body S document_id version_id {| tx_db := d; tx_failed := false |}
  = (inr v, st') ->
  tx_failed st' = false
  /\ exists ver, v = ver_version ver
                 /\ rollback_applied S document_id version_id d (tx_db st') ver.
Proof.
  unfold rollback_body.
  intros (did & st1 & (Hdid & ->)%uuid_arg_inr & Hk)%bind_inr.
  apply bind_inr in Hk as (vid & st2 & (Hvid & ->)%uuid_arg_inr & Hk).
  apply bind_inr in Hk as (ver & st3 & Hsel & Hk).
  apply statement_inr in Hsel as (_ & _ & Hsel & Hf3).
  simpl in Hsel. injection Hsel as Hver Hdb3.
  destruct ver as [ver|]; [|done]. symmetry in Hver.
  apply bind_inr in Hk as (doc & st4 & Hdoc & Hk).
  apply get_document_core_inr in Hdoc as (id & Hid & _ & Hf4 & Hdb4 & Hdoc).
  assert (id = did) as -> by congruence.
  destruct doc as [doc|]; [|done]. symmetry in Hdoc.
  apply bind_inr in Hk as (chs & st5 & (Hchunk & ->)%call_inr & Hk).
  apply bind_inr in Hk as (embedded & st6 & (Hembed & ->)%call_inr & Hk).
  apply bind_inr in Hk as ([] & st7 & Hrep & Hk).
  apply replace_chunks_inr in Hrep as (_ & Hf7 & Hd7 & Hc7 & Hv7).
  apply bind_inr in Hk as ([] & st8 & Hupd & Hk).
  apply update_document_inr in Hupd as (_ & Hf8 & Hd8 & Hc8 & Hv8).
  unfold ret in Hk. injection Hk as <- <-.
  split; [done|]. exists ver. split; [done|].
  rewrite Hdb4, <- Hdb3 in *.
  exists did, vid, doc, chs, embedded.
  repeat (split; [done|]). cbv zeta.
  repeat (split; [done|]).
  split. { by rewrite Hc8, Hc7. }
  split. { by rewrite Hv8, Hv7. }
  unfold updated_documents. by rewrite Hd8, Hd7.
Qed.

Lemma rollback_inr document_id version_id d v d' :
  rollback_version S document_id version_id d = (inr v, d') ->
  exists ver, v = ver_version ver
              /\ rollback_applied S document_id version_id d d' ver.
Proof.
  unfold rollback_version.
  intros (st & Hbody & ->)%transaction_inr.
  apply rollback_body_inr in Hbody as [-> H]. exact H.
Qed.

End Steps.

End ReindexFacts.

(** ** Runs without faults succeed *)

Module ReindexRuns.
Import Api Reindex TxFacts.

Section Runs.
Variable S : services.
Hypothesis no_faults : forall s, faults S s = None.

Lemma insert_chunks_ok id chs i st :
  tx_failed st = false ->
  exists st', insert_chunks S id chs i st = (inr (), st')
              /\ tx_failed st' = false.
Proof.
  revert i st. induction chs as [|ch rest IH]; intros i st Hf; simpl.
  - by exists st.
  - erewrite bind_ok; [|by apply statement_ok]. by apply IH.
Qed.

Lemma replace_chunks_ok id chs st :
  tx_failed st = false ->
  exists st', replace_chunks S id chs st = (inr (), st')
              /\ tx_failed st' = false.
Proof.
  intros Hf. unfold replace_chunks.
  erewrite bind_ok; [|by apply statement_ok]. by apply insert_chunks_ok.
Qed.

Lemma get_document_core_ok document_id id st :
  parse_uuid S document_id = Some id -> tx_failed st = false ->
  _get_document_core S document_id st
  = (inr (documents (tx_db st) !! id),
     {| tx_db := tx_db st; tx_failed := false |}).
Proof.
  intros Hid Hf. unfold _get_document_core, uuid_arg. rewrite Hid.
  erewrite bind_ok; [|done]. by rewrite statement_ok.
Qed.

(** A rollback to an existing snapshot of an existing document goes
    through when the chunker and the embedder answer. *)
Lemma rollback_ok document_id version_id d did vid ver doc chs embedded :
  parse_uuid S document_id = Some did ->
  parse_uuid S version_id = Some vid ->
  find_version did vid d = Some ver ->
  documents d !! did = Some doc ->
  chunk_document S (default [] (ver_content ver)) (doc_title doc)
    (str_or (doc_source doc) "rollback") (default ∅ (ver_metadata ver))
  = Some chs ->
  embed_chunks S chs = Some embedded ->
  exists d', rollback_version S document_id version_id d
             = (inr (ver_version ver), d').
Proof.
  intros Hdid Hvid Hver Hdoc Hchunk Hembed.
  unfold rollback_version, transaction, rollback_body, uuid_arg.
  rewrite Hdid, Hvid.
  erewrite bind_ok; [|done]. erewrite bind_ok; [|done].
  erewrite bind_ok; [|by apply statement_ok]. simpl. rewrite Hver.
  erewrite bind_ok; [|by apply get_document_core_ok]. simpl. rewrite Hdoc.
  rewrite Hchunk. erewrite bind_ok; [|done].
  rewrite Hembed. erewrite bind_ok; [|done].
  destruct (replace_chunks_ok did embedded {| tx_db := d; tx_failed := false |})
    as (st1 & Hrep & Hf1); [done|].
  erewrite bind_ok; [|exact Hrep].
  erewrite bind_ok; [|by apply statement_ok].
  unfold ret. eauto.
Qed.

(** An upload to an existing document goes through when the change summary
    is given, the file can be read and the chunker and the embedder answer
    (whatever metadata they are handed). *)
Lemma upload_ok document_id created_by file change_summary bump version d id doc raw :
  PyStr.nonempty (PyStr.strip change_summary) = true ->
  read file = inr raw ->
  parse_uuid S document_id = Some id ->
  documents d !! id = Some doc ->
  (forall c t s m, is_Some (chunk_document S c t s m)) ->
  (forall chs, is_Some (embed_chunks S chs)) ->
  exists nv d', upload_new_version S document_id created_by file change_summary
                  bump version d = (inr nv, d').
Proof.
  intros Hcs Hraw Hid Hdoc Hchunk Hembed.
  unfold upload_new_version. rewrite Hcs.
  assert (PyStr.nonempty change_summary = true) as ->.
  { destruct change_summary; [done|done]. }
  simpl.
  destruct file as [fn ct rd]; simpl in Hraw; subst rd.
  rewrite DecodeFacts.read_new_content_ok.
  unfold transaction, upload_body.
  erewrite bind_ok; [|by apply get_document_core_ok]. simpl. rewrite Hdoc.
  unfold uuid_arg. rewrite Hid. erewrite bind_ok; [|done].
  match goal with
  | |- context [ensure_baseline S ?a ?b ?c ?e ?f] =>
      destruct (ReindexFacts.ensure_baseline_spec S a b c e f
                  {| tx_db := d; tx_failed := false |})
        as (cv' & st1 & Hbase & _ & _ & _ & _ & Hgood)
  end.
  erewrite bind_ok; [|exact Hbase].
  match goal with
  | |- context [call (chunk_document S ?c ?t ?s ?m) _] =>
      destruct (Hchunk c t s m) as [chs ->]
  end.
  erewrite bind_ok; [|done].
  destruct (Hembed chs) as [embedded ->].
  erewrite bind_ok; [|done].
  assert (tx_failed st1 = false) as Hf1.
  { revert Hbase. unfold ensure_baseline, try_except, bind, insert_version,
      statement, ret. simpl. rewrite !no_faults.
    destruct (has_version _ _ _); by intros [= _ <-]. }
  destruct (replace_chunks_ok id embedded st1 Hf1) as (st2 & Hrep & Hf2).
  erewrite bind_ok; [|exact Hrep].
  erewrite bind_ok; [|by apply statement_ok].
  erewrite bind_ok; [|by apply statement_ok].
  unfold ret. eauto.
Qed.

End Runs.

End ReindexRuns.

(** C1.  [upload_new_version] and [rollback_version] are atomic, whichever
    statements fail and whether the chunker or the embedder raises: a call
    that ends in an exception leaves the three tables exactly as they were
    (chunks, version history, document content and metadata), and a call
    that succeeds has applied all of its effects together.  Two runs show
    it on a failure injected after the old chunks were deleted and on one
    injected at the final document update. *)
Theorem reindexing_is_atomic S document_id version_id created_by file
    change_summary bump version d :
  match Api.upload_new_version S document_id created_by file change_summary
          bump version d with
  | (inl _, d') => d' = d
  | (inr nv, d') =>
      Reindex.upload_applied S document_id created_by file change_summary bump
        version d d' nv
  end
  /\ match Api.rollback_version S document_id version_id d with
     | (inl _, d') => d' = d
     | (inr v, d') =>
         exists ver, v = Api.ver_version ver
                     /\ Reindex.rollback_applied S document_id version_id d d' ver
     end
  /\ Api.upload_new_version (Fixture.services0 Fixture.first_insert_fails) "7"
       None Fixture.file_new "fix typo" "minor" None Fixture.db0
     = (inl (Api.PostgresError (Api.InsertChunk 0)), Fixture.db0)
  /\ Api.upload_new_version (Fixture.services0 Fixture.update_fails) "7"
       None Fixture.file_new "fix typo" "minor" None Fixture.db0
     = (inl (Api.PostgresError Api.UpdateDocument), Fixture.db0).
Proof.
  split; [|split; [|split; reflexivity]].
  - destruct (Api.upload_new_version _ _ _ _ _ _ _ _) as [[e|nv] d'] eqn:Hup.
    + by eapply ReindexFacts.upload_inl.
    + by apply ReindexFacts.upload_inr.
  - destruct (Api.rollback_version _ _ _ _) as [[e|v] d'] eqn:Hrb.
    + by eapply TxFacts.transaction_inl.
    + by apply ReindexFacts.rollback_inr.
Qed.

(** C3.  A rollback of an existing document to an existing snapshot, with
    no failing statement and a chunker and embedder that answer, succeeds
    with the snapshot's version; afterwards the document row carries
    exactly the snapshot's content and metadata (an SQL NULL, which no
    insert of this program writes, reads as the empty text or object), the
    document's chunks are those of that content, and the version history
    is the same list of rows: no snapshot is inserted.  The history is in
    fact untouched by every call of [rollback_version], failed or not. *)
Theorem rollback_restores_snapshot :
  (forall S document_id version_id d did vid ver doc chs embedded,
     (forall s, Api.faults S s = None) ->
     Api.parse_uuid S document_id = Some did ->
     Api.parse_uuid S version_id = Some vid ->
     Api.find_version did vid d = Some ver ->
     Api.documents d !! did = Some doc ->
     Api.chunk_document S (default [] (Api.ver_content ver)) (Api.doc_title doc)
       (Api.str_or (Api.doc_source doc) "rollback")
       (default ∅ (Api.ver_metadata ver)) = Some chs ->
     Api.embed_chunks S chs = Some embedded ->
     exists d' doc',
       Api.rollback_version S document_id version_id d
       = (inr (Api.ver_version ver), d')
       /\ Api.document_versions d' = Api.document_versions d
       /\ Api.documents d' !! did = Some doc'
       /\ Api.doc_content doc' = Some (default [] (Api.ver_content ver))
       /\ Api.doc_metadata doc' = Some (default ∅ (Api.ver_metadata ver))
       /\ (forall c, Api.ver_content ver = Some c -> Api.doc_content doc' = Some c)
       /\ (forall m, Api.ver_metadata ver = Some m -> Api.doc_metadata doc' = Some m)
       /\ Api.chunks d' = Reindex.replaced_chunks did embedded d)
  /\ (forall S document_id version_id d,
        Api.document_versions (Api.rollback_version S document_id version_id d).2
        = Api.document_versions d).
Proof.
  split.
  - intros S document_id version_id d did vid ver doc chs embedded
      Hnf Hdid Hvid Hver Hdoc Hchunk Hembed.
    destruct (ReindexRuns.rollback_ok S Hnf _ _ _ _ _ _ _ _ _
                Hdid Hvid Hver Hdoc Hchunk Hembed) as [d' Hrb].
    pose proof (ReindexFacts.rollback_inr _ _ _ _ _ _ Hrb)
      as (ver' & _ & did' & vid' & doc'' & chs' & emb' & Hdid' & Hvid' & Hver'
          & Hdoc' & Hrest).
    assert (did' = did) as -> by congruence.
    assert (vid' = vid) as -> by congruence.
    assert (ver' = ver) as -> by congruence.
    assert (doc'' = doc) as -> by congruence.
    cbv zeta in Hrest. destruct Hrest as (Hchunk' & Hembed' & Hc & Hv & Hd).
    assert (chs' = chs) as -> by congruence.
    assert (emb' = embedded) as -> by congruence.
    eexists d', _. split; [exact Hrb|]. split; [exact Hv|].
    split.
    { rewrite Hd. unfold Reindex.updated_documents.
      rewrite lookup_alter_eq, Hdoc. reflexivity. }
    simpl. repeat split; try done.
    + by intros c ->.
    + by intros m ->.
  - intros S document_id version_id d.
    destruct (Api.rollback_version _ _ _ _) as [[e|v] d'] eqn:Hrb; simpl.
    + by rewrite (TxFacts.transaction_inl _ _ _ _ Hrb).
    + apply ReindexFacts.rollback_inr in Hrb
        as (ver & _ & did & vid & doc & chs & emb & _ & _ & _ & _ & Hrest).
      cbv zeta in Hrest. by destruct Hrest as (_ & _ & _ & Hv & _).
Qed.

Lemma rollback_restores_snapshot_witness :
  exists d' doc',
    Api.rollback_version (Fixture.services0 Fixture.no_faults) "7" "100"
      Fixture.db1 = (inr "1.0", d')
    /\ Api.document_versions d' = Api.document_versions Fixture.db1
    /\ Api.documents d' !! 7 = Some doc'
    /\ Api.doc_content doc' = Some (text_of_string "old")
    /\ Api.doc_metadata doc' = Some {[ "version" := JStr "1.0" ]}.
Proof.
  edestruct (proj1 rollback_restores_snapshot
               (Fixture.services0 Fixture.no_faults) "7" "100" Fixture.db1 7 100)
    as (d' & doc' & Hrb & Hv & Hd & Hc & Hm & _).
  - intros s. reflexivity.
  - reflexivity.
  - reflexivity.
  - vm_compute. reflexivity.
  - vm_compute. reflexivity.
  - vm_compute. reflexivity.
  - vm_compute. reflexivity.
  - exists d', doc'. split; [exact Hrb|]. split; [exact Hv|].
    split; [exact Hd|]. split; [exact Hc|]. exact Hm.
Defined.

(** ** The baseline snapshot *)

Module BaselineFacts.
Import Api Reindex.

Lemma str_N_not_blank n s :
  PyStr.nonempty (PyStr.strip (PyStr.str_N n +:+ s)) = true.
Proof.
  rewrite StripFacts.strip_nonempty, PyStrFacts.forallb_str_app.
  pose proof (PyStrFacts.str_N_nonempty n) as Hne.
  pose proof (PyStrFacts.str_N_decimal n) as Hdec.
  destruct (PyStr.str_N n) as [|c r]; [done|]. simpl in *.
  apply andb_prop in Hdec as [Hc _].
  rewrite (PyStrFacts.version_char_not_space c); [done|].
  unfold PyStr.version_char. by rewrite Hc.
Qed.

Lemma bump_version_not_blank cv bump :
  PyStr.nonempty (PyStr.strip (_bump_version cv bump)) = true.
Proof.
  unfold _bump_version. destruct (_parse_version cv) as [major minor].
  destruct (String.eqb bump "major"); apply str_N_not_blank.
Qed.

(** The version an upload records is never blank. *)
Lemma new_version_not_blank version cv bump :
  PyStr.nonempty (PyStr.strip (new_version version cv bump)) = true.
Proof.
  unfold new_version. destruct version as [v|].
  - destruct (PyStr.nonempty (PyStr.strip v)) eqn:Hv.
    + by rewrite StripFacts.strip_idem.
    + apply bump_version_not_blank.
  - apply bump_version_not_blank.
Qed.

Lemma get_new_metadata_version meta nv file raw :
  get (new_metadata meta nv file raw) "version" = JStr nv.
Proof.
  unfold get, new_metadata.
  destruct (filename file) as [[|c r]|];
    rewrite ?lookup_insert_ne by done; by rewrite lookup_insert_eq.
Qed.

Lemma has_version_last id v rows row ds cs :
  ver_document_id row = id -> ver_version row = v ->
  has_version id v {| documents := ds; chunks := cs;
                      document_versions := rows ++ [row] |} = true.
Proof.
  intros Hid Hv. unfold has_version. simpl. rewrite existsb_app. simpl.
  by rewrite Hid, Hv, N.eqb_refl, String.eqb_refl, orb_true_r.
Qed.

(** After a successful upload the current version of the document has a
    row in the history. *)
Lemma upload_applied_current_version S document_id created_by file change_summary
    bump version d d' nv id :
  parse_uuid S document_id = Some id ->
  upload_applied S document_id created_by file change_summary bump version d d' nv ->
  exists doc',
    documents d' !! id = Some doc'
    /\ get (default ∅ (doc_metadata doc')) "version" = JStr nv
    /\ prev_ver (JStr nv) = nv
    /\ has_version id nv d' = true.
Proof.
  intros Hid (id' & doc & raw & new_content & cv' & bl & chs & embedded
              & Hid' & Hdoc & Hread & H).
  assert (id' = id) as -> by congruence.
  cbv zeta in H.
  destruct H as (Hcv & Hnv & Hbl & _ & Hchunk & Hembed & Hc & Hv & Hd).
  eexists. split.
  { rewrite Hd. unfold updated_documents. by rewrite lookup_alter_eq, Hdoc. }
  simpl. split; [apply get_new_metadata_version|].
  split.
  { simpl. by rewrite Hnv, new_version_not_blank. }
  destruct d' as [ds cs vs]. simpl in Hv. rewrite Hv, app_assoc.
  by apply has_version_last.
Qed.

End BaselineFacts.

(** ** Histories over a run *)

Module HistoryFacts.
Import Api Reindex History.

Lemma has_version_mono id v d d' extra :
  document_versions d' = document_versions d ++ extra ->
  has_version id v d = true -> has_version id v d' = true.
Proof.
  unfold has_version. intros -> H. by rewrite existsb_app, H.
Qed.

Lemma has_version_elem id v d row :
  row ∈ document_versions d -> ver_document_id row = id ->
  ver_version row = v -> has_version id v d = true.
Proof.
  intros Hin Hid Hv. unfold has_version. apply existsb_exists.
  exists row. split; [by apply list_elem_of_In|].
  by rewrite Hid, Hv, N.eqb_refl, String.eqb_refl.
Qed.

Lemma find_version_elem did vid d row :
  find_version did vid d = Some row ->
  row ∈ document_versions d /\ ver_document_id row = did.
Proof.
  unfold find_version. intros [Hin Hp]%find_some.
  split; [by apply list_elem_of_In|].
  apply andb_prop in Hp as [Hd _]. by apply N.eqb_eq in Hd.
Qed.

(** What an upload to document [id] does to its history. *)
Lemma upload_history Sv document_id created_by file change_summary bump
    version d d' nv id :
  parse_uuid Sv document_id = Some id ->
  upload_applied Sv document_id created_by file change_summary bump version
    d d' nv ->
  exists bl snap,
    document_versions d' = document_versions d ++ bl ++ [snap]
    /\ Forall (fun row => ver_document_id row = id /\ row_consistent row)
              (bl ++ [snap])
    /\ (length bl <= 1)%nat
    /\ (current_recorded id d -> bl = [])
    /\ (forall other, other ≠ id -> documents d' !! other = documents d !! other)
    /\ current_recorded id d'.
Proof.
  intros Hid Hup.
  destruct (BaselineFacts.upload_applied_current_version _ _ _ _ _ _ _ _ _ _ _
              Hid Hup) as (doc' & Hdoc' & Hget & Hprev & Hhas).
  destruct Hup as (id' & doc & raw & new_content & cv' & bl & chs & embedded
                   & Hid' & Hdoc & Hread & H).
  assert (id' = id) as -> by congruence. cbv zeta in H.
  destruct H as (_ & Hnv & Hbl & _ & _ & _ & _ & Hv & Hd).
  eexists bl, _. split; [exact Hv|].
  split.
  { apply Forall_app. split.
    - destruct Hbl as [->|[_ ->]]; [constructor|].
      constructor; [|constructor]. by split.
    - constructor; [|constructor]. split; [done|].
      unfold row_consistent. simpl.
      rewrite BaselineFacts.get_new_metadata_version. simpl.
      by rewrite Hnv, BaselineFacts.new_version_not_blank. }
  split. { destruct Hbl as [->|[_ ->]]; simpl; lia. }
  split.
  { intros Hcur. specialize (Hcur _ Hdoc).
    destruct Hbl as [->|[Hno _]]; [done|congruence]. }
  split.
  { intros other Hne. rewrite Hd. unfold updated_documents.
    by rewrite lookup_alter_ne. }
  intros doc'' Hdoc''. assert (doc'' = doc') as -> by congruence.
  by rewrite Hget, Hprev.
Qed.

(** A rollback of document [id] records its current version, provided the
    history is consistent. *)
Lemma rollback_history Sv document_id version_id d d' ver id :
  parse_uuid Sv document_id = Some id ->
  rollback_applied Sv document_id version_id d d' ver ->
  document_versions d' = document_versions d
  /\ (forall other, other ≠ id -> documents d' !! other = documents d !! other)
  /\ (history_consistent id d -> current_recorded id d').
Proof.
  intros Hid (did & vid & doc & chs & embedded & Hdid & Hvid & Hver & Hdoc & H).
  assert (did = id) as -> by congruence. cbv zeta in H.
  destruct H as (_ & _ & _ & Hv & Hd).
  split; [done|]. split.
  { intros other Hne. rewrite Hd. unfold updated_documents.
    by rewrite lookup_alter_ne. }
  intros Hwf doc' Hdoc'.
  rewrite Hd in Hdoc'. unfold updated_documents in Hdoc'.
  rewrite lookup_alter_eq, Hdoc in Hdoc'. injection Hdoc' as <-. simpl.
  apply find_version_elem in Hver as [Hin Hvid'].
  eapply has_version_elem; [by rewrite Hv | done |].
  by apply Hwf.
Qed.

Lemma rows_of_app id ds cs rows extra :
  rows_of id {| documents := ds; chunks := cs;
                document_versions := rows ++ extra |}
  = filter (fun row => ver_document_id row = id) rows
    ++ filter (fun row => ver_document_id row = id) extra.
Proof. unfold rows_of. simpl. apply filter_app. Qed.

Lemma filter_all id (l : list version_row) :
  Forall (fun row => ver_document_id row = id /\ row_consistent row) l ->
  filter (fun row => ver_document_id row = id) l = l.
Proof.
  induction 1 as [|row l [Hid _] _ IH]; [done|].
  by rewrite filter_cons_True, IH.
Qed.

Lemma filter_none id other (l : list version_row) :
  other ≠ id ->
  Forall (fun row => ver_document_id row = other /\ row_consistent row) l ->
  filter (fun row => ver_document_id row = id) l = [].
Proof.
  intros Hne. induction 1 as [|row l [Hid _] _ IH]; [done|].
  rewrite filter_cons_False, IH; [done|congruence].
Qed.

(** The invariant of a run: the history of [id] stays consistent, grows by
    at most one row more than the uploads, and once that extra row is there
    the current version is recorded. *)
Lemma run_invariant id d n d' :
  history_consistent id d ->
  versioning_run id d n d' ->
  history_consistent id d'
  /\ (length (rows_of id d') <= length (rows_of id d) + n + 1)%nat
  /\ (length (rows_of id d') = length (rows_of id d) + n + 1 ->
      current_recorded id d')%nat.
Proof.
  intros Hwf Hrun.
  induction Hrun as
    [ | n d1 d2 Sv document_id created_by file cs bump version nv Hrun IH Hid Hup
      | n d1 d2 Sv document_id version_id v Hrun IH Hid Hrb
      | n d1 d2 Sv document_id other created_by file cs bump version nv Hrun IH
          Hid Hne Hup
      | n d1 d2 Sv document_id other version_id v Hrun IH Hid Hne Hrb ].
  - split; [done|]. split; lia.
  - destruct IH as (Hwf1 & Hle & Hcur).
    apply ReindexFacts.upload_inr in Hup.
    destruct (upload_history _ _ _ _ _ _ _ _ _ _ _ Hid Hup)
      as (bl & snap & Hv & Hall & Hlen & Hbl & _ & Hcur2).
    assert (rows_of id d2 = rows_of id d1 ++ bl ++ [snap]) as Hrows.
    { destruct d2 as [ds cs2 vs]. simpl in Hv. subst vs.
      rewrite rows_of_app. by rewrite (filter_all _ _ Hall). }
    split.
    { intros row Hin Hrow. rewrite Hv in Hin.
      apply elem_of_app in Hin as [Hin|Hin]; [by apply Hwf1|].
      rewrite Forall_forall in Hall. by apply Hall. }
    split; [|done].
    rewrite Hrows, !length_app. simpl.
    destruct (decide (length (rows_of id d1) = length (rows_of id d) + n + 1)%nat)
      as [Heq|Hneq].
    + rewrite (Hbl (Hcur Heq)). simpl. lia.
    + lia.
  - destruct IH as (Hwf1 & Hle & Hcur).
    apply ReindexFacts.rollback_inr in Hrb as (ver & _ & Hrb).
    destruct (rollback_history _ _ _ _ _ _ _ Hid Hrb) as (Hv & _ & Hcur2).
    assert (rows_of id d2 = rows_of id d1) as Hrows
      by (unfold rows_of; by rewrite Hv).
    split. { intros row Hin. rewrite Hv in Hin. by apply Hwf1. }
    rewrite Hrows. split; [done|]. intros _. by apply Hcur2.
  - destruct IH as (Hwf1 & Hle & Hcur).
    apply ReindexFacts.upload_inr in Hup.
    destruct (upload_history _ _ _ _ _ _ _ _ _ _ _ Hid Hup)
      as (bl & snap & Hv & Hall & _ & _ & Hframe & _).
    assert (rows_of id d2 = rows_of id d1) as Hrows.
    { destruct d2 as [ds cs2 vs]. simpl in Hv. subst vs.
      rewrite rows_of_app, (filter_none _ _ _ Hne Hall). by rewrite app_nil_r. }
    split.
    { intros row Hin Hrow. rewrite Hv in Hin.
      apply elem_of_app in Hin as [Hin|Hin]; [by apply Hwf1|].
      rewrite Forall_forall in Hall. destruct (Hall _ Hin). congruence. }
    rewrite Hrows. split; [done|].
    intros Heq doc Hdoc. rewrite Hframe in Hdoc by done.
    eapply has_version_mono; [exact Hv|]. by apply Hcur.
  - destruct IH as (Hwf1 & Hle & Hcur).
    apply ReindexFacts.rollback_inr in Hrb as (ver & _ & Hrb).
    destruct (rollback_history _ _ _ _ _ _ _ Hid Hrb) as (Hv & Hframe & _).
    assert (rows_of id d2 = rows_of id d1) as Hrows
      by (unfold rows_of; by rewrite Hv).
    split. { intros row Hin. rewrite Hv in Hin. by apply Hwf1. }
    rewrite Hrows. split; [done|].
    intros Heq doc Hdoc. rewrite Hframe in Hdoc by done.
    unfold has_version. rewrite Hv. by apply Hcur.
Qed.

End HistoryFacts.

(** C2.  When two uploads to the same document succeed one after the other
    (whatever faults, files and version arguments each has), the first
    appends to the history at most one baseline row followed by its
    snapshot, and the second appends its snapshot only.  The baseline row
    is inserted only if no row carried the document's current version
    string (the version in its metadata, or "1.0" when that is absent,
    blank or not a string), it has the change summary "Initial version
    snapshot" and the document's content and metadata from before the
    update; and it is inserted, exactly once, whenever no such row existed
    and the two baseline statements ran.  More generally, over any run of
    successful uploads and rollbacks, on this and on other documents, that
    starts from a consistent history, the history of a document grows by at
    most one row more than the number of uploads to it: its snapshots and
    at most one baseline. *)
Theorem baseline_created_once :
  (forall S1 S2 document_id1 document_id2 id created_by1 created_by2 file1 file2
          change_summary1 change_summary2 bump1 bump2 version1 version2
          d d1 d2 nv1 nv2,
     Api.parse_uuid S1 document_id1 = Some id ->
     Api.parse_uuid S2 document_id2 = Some id ->
     Api.upload_new_version S1 document_id1 created_by1 file1 change_summary1
       bump1 version1 d = (inr nv1, d1) ->
     Api.upload_new_version S2 document_id2 created_by2 file2 change_summary2
       bump2 version2 d1 = (inr nv2, d2) ->
     exists doc bl snap1 snap2,
       Api.documents d !! id = Some doc
       /\ Api.document_versions d1 = Api.document_versions d ++ bl ++ [snap1]
       /\ Api.document_versions d2 = Api.document_versions d1 ++ [snap2]
       /\ Api.ver_version snap1 = nv1
       /\ Api.ver_change_summary snap1 = change_summary1
       /\ Api.ver_version snap2 = nv2
       /\ Api.ver_change_summary snap2 = change_summary2
       /\ let meta := default ∅ (Api.doc_metadata doc) in
          let current := Api.prev_ver (Api.get meta "version") in
          (bl = []
           \/ (Api.has_version id current d = false
               /\ exists b,
                    bl = [b]
                    /\ Api.ver_document_id b = id
                    /\ Api.ver_version b = current
                    /\ Api.ver_change_summary b = "Initial version snapshot"
                    /\ Api.ver_content b = Some (default [] (Api.doc_content doc))
                    /\ Api.ver_metadata b = Some meta))
          /\ (Api.faults S1 Api.SelectBaseline = None ->
              Api.faults S1 Api.InsertBaseline = None ->
              Api.has_version id current d = false ->
              length bl = 1%nat))
  /\ (forall id d n d',
        History.history_consistent id d ->
        History.versioning_run id d n d' ->
        (length (History.rows_of id d')
         <= length (History.rows_of id d) + n + 1)%nat).
Proof.
  split.
  - intros S1 S2 document_id1 document_id2 id created_by1 created_by2 file1
      file2 change_summary1 change_summary2 bump1 bump2 version1 version2
      d d1 d2 nv1 nv2 Hid1 Hid2 Hup1 Hup2.
    apply ReindexFacts.upload_inr in Hup1, Hup2.
    destruct (BaselineFacts.upload_applied_current_version _ _ _ _ _ _ _ _ _ _ _
                Hid1 Hup1) as (doc1 & Hdoc1 & Hcur & Hprev & Hhas).
    destruct Hup1 as (id' & doc & raw & new_content & cv' & bl & chs & embedded
                      & Hid' & Hdoc & Hread & H1).
    assert (id' = id) as -> by congruence. cbv zeta in H1.
    destruct H1 as (_ & _ & Hbl & Hgood & _ & _ & _ & Hv1 & _).
    destruct Hup2 as (id2 & doc' & raw2 & new_content2 & cv2 & bl2 & chs2
                      & embedded2 & Hid2' & Hdoc' & Hread2 & H2).
    assert (id2 = id) as -> by congruence.
    assert (doc' = doc1) as -> by congruence. cbv zeta in H2.
    destruct H2 as (_ & _ & Hbl2 & _ & _ & _ & _ & Hv2 & _).
    rewrite Hcur, Hprev in Hbl2.
    destruct Hbl2 as [->|[Hno _]]; [|congruence].
    eexists doc, bl, _, _. split; [exact Hdoc|]. split; [exact Hv1|].
    split; [exact Hv2|]. simpl.
    repeat (split; [reflexivity|]).
    split.
    + destruct Hbl as [->|[Hno ->]]; [by left|]. right. split; [done|].
      eexists. split; [reflexivity|]. by repeat split.
    + intros Hs Hi Hno. specialize (Hgood Hs Hi Hno).
      destruct Hbl as [->|[_ ->]]; done.
  - intros id d n d' Hwf Hrun.
    by destruct (HistoryFacts.run_invariant id d n d' Hwf Hrun) as (_ & Hle & _).
Qed.

Lemma baseline_created_once_witness :
  let S := Fixture.services0 Fixture.no_faults in
  let d2 := (Api.upload_new_version S "7" None Fixture.file_latin "accents"
               "major" None Fixture.db1).2 in
  Api.upload_new_version S "7" None Fixture.file_new "fix typo" "minor" None
    Fixture.db0 = (inr "1.1", Fixture.db1)
  /\ Api.upload_new_version S "7" None Fixture.file_latin "accents" "major" None
       Fixture.db1 = (inr "2.0", d2)
  /\ map Api.ver_version (Api.document_versions d2) = ["1.0"; "1.1"; "2.0"]
  /\ map Api.ver_change_summary (Api.document_versions d2)
     = ["Initial version snapshot"; "fix typo"; "accents"]
  /\ (exists bl snap1 snap2,
        Api.document_versions Fixture.db1
        = Api.document_versions Fixture.db0 ++ bl ++ [snap1]
        /\ Api.document_versions d2
           = Api.document_versions Fixture.db1 ++ [snap2]
        /\ length bl = 1%nat)
  /\ History.history_consistent 7 Fixture.db0
  /\ History.versioning_run 7 Fixture.db0 2 d2
  /\ (length (History.rows_of 7 d2)
      <= length (History.rows_of 7 Fixture.db0) + 2 + 1)%nat.
Proof.
  intros S d2.
  assert (Api.upload_new_version S "7" None Fixture.file_new "fix typo" "minor"
            None Fixture.db0 = (inr "1.1", Fixture.db1)) as H1.
  { vm_compute. reflexivity. }
  assert (Api.upload_new_version S "7" None Fixture.file_latin "accents" "major"
            None Fixture.db1 = (inr "2.0", d2)) as H2.
  { vm_compute. reflexivity. }
  assert (History.history_consistent 7 Fixture.db0) as Hwf.
  { intros row Hin. simpl in Hin. by apply elem_of_nil in Hin. }
  assert (History.versioning_run 7 Fixture.db0 2 d2) as Hrun.
  { apply (History.run_upload 7 Fixture.db0 1 Fixture.db1 d2 S "7" None
             Fixture.file_latin "accents" "major" None "2.0");
      [|reflexivity|exact H2].
    apply (History.run_upload 7 Fixture.db0 0 Fixture.db0 Fixture.db1 S "7" None
             Fixture.file_new "fix typo" "minor" None "1.1");
      [|reflexivity|exact H1].
    apply History.run_start. }
  split; [exact H1|]. split; [exact H2|].
  split; [vm_compute; reflexivity|]. split; [vm_compute; reflexivity|].
  split; [|split; [exact Hwf|split; [exact Hrun|]]].
  - destruct (proj1 baseline_created_once S S "7" "7" 7 None None
                Fixture.file_new Fixture.file_latin "fix typo" "accents" "minor"
                "major" None None Fixture.db0 Fixture.db1 d2 "1.1" "2.0"
                eq_refl eq_refl H1 H2)
      as (doc & bl & snap1 & snap2 & Hdoc & Hv1 & Hv2 & _ & _ & _ & _ & _ & Hone).
    exists bl, snap1, snap2. split; [exact Hv1|]. split; [exact Hv2|].
    apply Hone; [reflexivity | reflexivity |].
    assert (doc = Fixture.doc7) as ->.
    { assert (Api.documents Fixture.db0 !! 7 = Some Fixture.doc7) as Hd
        by reflexivity.
      rewrite Hd in Hdoc. by injection Hdoc. }
    reflexivity.
  - exact (proj2 baseline_created_once 7 Fixture.db0 2%nat d2 Hwf Hrun).
Defined.

(** ** Comparing versions *)

Module CompareFacts.
Import Api.

(** Lines keep their terminators: joining them gives the text back. *)
Lemma concat_splitlines_le n t :
  (length t <= n)%nat -> concat (PyText.splitlines t) = t.
Proof.
  revert t. induction n as [|n IH]; intros t Hn.
  { destruct t; [done | simpl in Hn; lia]. }
  destruct t as [|c r]; [done|]. simpl in Hn.
  cbn [PyText.splitlines].
  destruct (c =? 13) eqn:Hc.
  - apply N.eqb_eq in Hc as ->.
    destruct r as [|c1 r']; [done|].
    assert (concat (PyText.splitlines (c1 :: r')) = c1 :: r') as H1
      by (apply IH; lia).
    assert (concat (PyText.splitlines r') = r') as H2
      by (apply IH; simpl in Hn; lia).
    destruct (c1 =? 10) eqn:Hc1.
    + apply N.eqb_eq in Hc1 as ->. cbn [concat app]. by rewrite H2.
    + cbn [concat app]. by rewrite H1.
  - assert (concat (PyText.splitlines r) = r) as Hr by (apply IH; lia).
    destruct (PyText.is_linebreak c); [by simpl; rewrite Hr|].
    destruct r as [|c1 r']; [done|].
    destruct (PyText.splitlines (c1 :: r')) as [|h tl]; simpl in *;
      by rewrite <- Hr.
Qed.

Lemma concat_splitlines t : concat (PyText.splitlines t) = t.
Proof. by apply (concat_splitlines_le (length t)). Qed.

Section Selectors.
Variable S : services.
Variable document_id : string.
Variable did : N.
Hypothesis Hdid : parse_uuid S document_id = Some did.
Hypothesis no_faults : forall s, faults S s = None.

Lemma get_content_current d :
  get_content S document_id (Some "current") d
  = inr (match documents d !! did with
         | Some doc => default [] (doc_content doc)
         | None => []
         end).
Proof.
  unfold get_content, query. simpl. rewrite Hdid, no_faults.
  by destruct (documents d !! did) as [[? ? [?|] ? ?]|].
Qed.

Lemma get_content_snapshot sel vid d :
  sel ≠ "" -> sel ≠ "current" -> parse_uuid S sel = Some vid ->
  get_content S document_id (Some sel) d
  = inr (match find_version did vid d with
         | Some row => default [] (ver_content row)
         | None => []
         end).
Proof.
  intros Hne Hcur Hvid. unfold get_content, query.
  destruct sel as [|c r]; [done|].
  apply String.eqb_neq in Hcur. rewrite Hcur, Hdid, Hvid, no_faults.
  by destruct (find_version did vid d) as [[? ? ? ? [?|] ? ? ? ? ?]|].
Qed.

End Selectors.

(** [compare_versions] answers a diff, a 400 for a missing right selector
    or a 500; it has no 404. *)
Lemma compare_versions_status S document_id payload d :
  match compare_versions S document_id payload d with
  | inr _ => True
  | inl (HTTPException c detail) =>
      (c = 400 /\ detail = "right version is required") \/ c = 500
  | inl _ => False
  end.
Proof.
  unfold compare_versions.
  destruct (opt_or (right payload) (right_version_id payload)) as [[|c r]|];
    [by left; split | | by left; split].
  assert (forall sel, match get_content S document_id sel d with
                      | inl (HTTPException _ _) => False
                      | _ => True
                      end) as Hget.
  { intros sel. unfold get_content, query.
    repeat case_match; done. }
  pose proof (Hget (Some (str_or (opt_or (left payload) (left_version_id payload))
                            "current"))) as Hl.
  destruct (get_content S document_id (Some (str_or _ _)) d) as [[]|l];
    try done; try by right.
  pose proof (Hget (Some (String c r))) as Hr.
  destruct (get_content S document_id (Some (String c r)) d) as [[]|rt];
    try done; by right.
Qed.

End CompareFacts.

(** C9, as stated, fails on a selector that names no snapshot: id 555 is
    not in the history of document 7, yet the comparison succeeds, taking
    the right-hand text to be empty; and a request without a right selector
    is answered with status 400, not with a not-found error. *)
Lemma compare_unknown_selector_succeeds :
  let S := Fixture.services0 Fixture.no_faults in
  Api.find_version 7 555 Fixture.db0 = None
  /\ Api.get_content S "7" (Some "555") Fixture.db0 = inr []
  /\ Api.compare_versions S "7"
       {| Api.left_version_id := None; Api.right_version_id := Some "555";
          Api.left := None; Api.right := None |} Fixture.db0
     = inr (text_of_string "-old")
  /\ Api.compare_versions S "7"
       {| Api.left_version_id := None; Api.right_version_id := None;
          Api.left := None; Api.right := None |} Fixture.db0
     = inl (Api.HTTPException 400 "right version is required").
Proof. repeat split; vm_compute; reflexivity. Qed.

(** C9 (amended).  With a well-formed document id and no failing query:
    the selector "current" resolves to the document's current content and
    any other well-formed selector to the content of the snapshot it
    names; a NULL content, a missing document and a selector that names no
    snapshot all resolve to the empty text instead of failing; an absent
    left selector means "current" and an absent right selector is refused
    with status 400.  The answer is the unified diff of the two texts split
    into lines that keep their terminators (so that the lines of a text
    concatenate back to it), and [compare_versions] never answers with a
    not-found status. *)
Theorem compare_versions_selectors :
  (forall S document_id did d,
     Api.parse_uuid S document_id = Some did ->
     (forall s, Api.faults S s = None) ->
     Api.get_content S document_id (Some "current") d
     = inr (match Api.documents d !! did with
            | Some doc => default [] (Api.doc_content doc)
            | None => []
            end)
     /\ (forall sel vid,
           sel ≠ "" -> sel ≠ "current" -> Api.parse_uuid S sel = Some vid ->
           Api.get_content S document_id (Some sel) d
           = inr (match Api.find_version did vid d with
                  | Some row => default [] (Api.ver_content row)
                  | None => []
                  end)))
  /\ (forall S document_id payload d,
        let left_sel :=
          Api.str_or (Api.opt_or (Api.left payload) (Api.left_version_id payload))
            "current" in
        let right_sel :=
          Api.str_or (Api.opt_or (Api.right payload) (Api.right_version_id payload))
            "" in
        Api.compare_versions S document_id payload d
        = if String.eqb right_sel "" then
            inl (Api.HTTPException 400 "right version is required")
          else
            match Api.get_content S document_id (Some left_sel) d,
                  Api.get_content S document_id (Some right_sel) d with
            | inr l, inr r =>
                inr (concat (Api.unified_diff S (PyText.splitlines l)
                               (PyText.splitlines r) left_sel right_sel))
            | inl (Api.HTTPException c detail), _ =>
                inl (Api.HTTPException c detail)
            | inl e, _ => inl (Api.HTTPException 500 (Api.exn_str e))
            | inr _, inl (Api.HTTPException c detail) =>
                inl (Api.HTTPException c detail)
            | inr _, inl e => inl (Api.HTTPException 500 (Api.exn_str e))
            end)
  /\ (forall t, concat (PyText.splitlines t) = t)
  /\ (forall S document_id payload d,
        match Api.compare_versions S document_id payload d with
        | inr _ => True
        | inl (Api.HTTPException c detail) =>
            (c = 400 /\ detail = "right version is required") \/ c = 500
        | inl _ => False
        end).
Proof.
  split; [|split; [|split]].
  - intros S document_id did d Hdid Hnf. split.
    + by apply CompareFacts.get_content_current.
    + intros sel vid. by apply CompareFacts.get_content_snapshot.
  - intros S document_id payload d. unfold Api.compare_versions.
    destruct (Api.opt_or (Api.right payload) (Api.right_version_id payload))
      as [[|c r]|]; cbn [Api.str_or String.eqb]; cbv zeta; try reflexivity.
    repeat case_match; congruence.
  - exact CompareFacts.concat_splitlines.
  - exact CompareFacts.compare_versions_status.
Qed.

Lemma compare_versions_selectors_witness :
  let S := Fixture.services0 Fixture.no_faults in
  Api.get_content S "7" (Some "current") Fixture.db1 = inr (text_of_string "new")
  /\ Api.get_content S "7" (Some "100") Fixture.db1 = inr (text_of_string "old")
  /\ Api.get_content S "7" (Some "555") Fixture.db1 = inr [].
Proof.
  intros S.
  destruct (proj1 compare_versions_selectors S "7" 7 Fixture.db1 eq_refl
              (fun _ => eq_refl)) as [Hcur Hsel].
  split; [exact Hcur|]. split.
  - exact (Hsel "100" 100 ltac:(discriminate) ltac:(discriminate) eq_refl).
  - exact (Hsel "555" 555 ltac:(discriminate) ltac:(discriminate) eq_refl).
Defined.




(* ===================================================================== *)
(** * Part III.  Further properties of the code                            *)
(* ===================================================================== *)

(** ** The language resolver *)

Module LanguageFacts.
Import PyStr Ocr.

Lemma split_parts_forallb p sep s :
  forallb_str p s = true -> Forall (fun t => forallb_str p t = true) (split sep s).
Proof.
  induction s as [|c s IH]; simpl; [by repeat constructor|].
  intros [Hc Hs]%andb_prop. specialize (IH Hs).
  destruct (Ascii.eqb c sep); [by constructor|].
  destruct (split sep s) as [|h t]; [by repeat constructor; simpl; rewrite Hc|].
  inversion IH as [|? ? Hh Ht]; subst. constructor; [|done].
  simpl. by rewrite Hc, Hh.
Qed.

Lemma split_parts_no_sep sep s :
  Forall (fun t => forallb_str (fun c => negb (Ascii.eqb c sep)) t = true)
         (split sep s).
Proof.
  induction s as [|c s IH]; simpl; [by repeat constructor|].
  destruct (Ascii.eqb c sep) eqn:Hc; [by constructor|].
  destruct (split sep s) as [|h t]; [by repeat constructor; simpl; rewrite Hc|].
  inversion IH as [|? ? Hh Ht]; subst. constructor; [|done].
  simpl. by rewrite Hc, Hh.
Qed.

Lemma lstrip_forallb p s :
  forallb_str p s = true -> forallb_str p (lstrip s) = true.
Proof.
  induction s as [|c s IH]; simpl; [done|].
  intros H. pose proof H as [Hc Hs]%andb_prop.
  destruct (isspace c); [by apply IH|done].
Qed.

Lemma rstrip_forallb p s :
  forallb_str p s = true -> forallb_str p (rstrip s) = true.
Proof.
  induction s as [|c s IH]; simpl; [done|].
  intros [Hc Hs]%andb_prop. specialize (IH Hs).
  destruct (rstrip s); simpl in *.
  - destruct (isspace c); simpl; by rewrite ?Hc.
  - by rewrite Hc, IH.
Qed.

Lemma strip_forallb p s :
  forallb_str p s = true -> forallb_str p (strip s) = true.
Proof. intros H. unfold strip. by apply rstrip_forallb, lstrip_forallb. Qed.

Lemma replace_char_absent x y s :
  Ascii.eqb y x = false ->
  forallb_str (fun c => negb (Ascii.eqb c x)) (replace_char x y s) = true.
Proof.
  intros Hxy. induction s as [|c s IH]; simpl; [done|].
  rewrite IH, andb_true_r. destruct (Ascii.eqb c x) eqn:Hc; by rewrite ?Hxy, ?Hc.
Qed.

Lemma split_languages_ok spec :
  Forall (fun t => nonempty t = true /\ strip t = t
                   /\ forallb_str (fun c => negb (Ascii.eqb c ",")) t = true
                   /\ forallb_str (fun c => negb (Ascii.eqb c ";")) t = true)
         (_split_languages spec).
Proof.
  destruct spec as [[|c0 s0]|]; simpl; try by constructor.
  set (normalized := replace_char ";" "," (String c0 s0)).
  pose proof (split_parts_no_sep "," normalized) as Hcomma.
  pose proof (split_parts_forallb _ "," normalized
                (replace_char_absent ";" "," (String c0 s0) eq_refl)) as Hsemi.
  change (String (if Ascii.eqb c0 ";" then ","%char else c0)
            (replace_char ";" "," s0)) with normalized.
  apply Forall_forall. intros t (part & Hin & Hf)%list_elem_of_omap.
  rewrite Forall_forall in Hcomma, Hsemi.
  destruct (nonempty (strip part)) eqn:Hne; [|done]. injection Hf as <-.
  split; [done|]. split; [apply StripFacts.strip_idem|].
  split; apply strip_forallb; auto.
Qed.

Lemma mem_elem x l : mem x l = true <-> x ∈ l.
Proof.
  unfold mem. rewrite existsb_exists. split.
  - intros (y & Hin & ->%String.eqb_eq). by apply list_elem_of_In.
  - intros Hin. exists x. split; [by apply list_elem_of_In|apply String.eqb_refl].
Qed.

(** Appending the fallbacks that are not yet present. *)
Lemma add_fallbacks fallbacks attempts :
  let r := fold_left
             (fun attempts fallback =>
                if nonempty fallback && negb (mem fallback attempts)
                then attempts ++ [fallback] else attempts)
             fallbacks attempts in
  attempts `prefix_of` r
  /\ (forall f, f ∈ fallbacks -> nonempty f = true -> f ∈ r)
  /\ (forall x, x ∈ r -> x ∈ attempts \/ x ∈ fallbacks).
Proof.
  revert attempts. induction fallbacks as [|f fs IH]; intros attempts; simpl.
  - split; [done|]. split; [by intros f Hin; apply elem_of_nil in Hin|auto].
  - set (a' := if nonempty f && negb (mem f attempts)
               then attempts ++ [f] else attempts).
    destruct (IH a') as (Hpre & Hall & Hsub).
    assert (attempts `prefix_of` a') as Hpre'.
    { unfold a'. destruct (_ && _); [by apply prefix_app_r|done]. }
    assert (nonempty f = true -> f ∈ a') as Hf.
    { intros Hne. unfold a'. rewrite Hne. simpl.
      destruct (mem f attempts) eqn:Hm; simpl.
      - by apply mem_elem.
      - apply elem_of_app. right. by left. }
    split; [by etrans|]. split.
    + intros x [->|Hin]%elem_of_cons Hne.
      * destruct Hpre as [k ->]. apply elem_of_app. left. by apply Hf.
      * by apply Hall.
    + intros x Hx. destruct (Hsub x Hx) as [Ha|Hfs].
      * unfold a' in Ha. destruct (_ && _); [|by left].
        apply elem_of_app in Ha as [Ha|Ha]; [by left|].
        apply list_elem_of_singleton in Ha as ->. right. by left.
      * right. by right.
Qed.

End LanguageFacts.

(** X1.  Every token [_split_languages] returns is non-empty, trimmed and
    free of the two separators. *)
Theorem split_languages_tokens spec :
  Forall (fun t => PyStr.nonempty t = true /\ PyStr.strip t = t
                   /\ PyStr.forallb_str (fun c => negb (Ascii.eqb c ",")) t = true
                   /\ PyStr.forallb_str (fun c => negb (Ascii.eqb c ";")) t = true)
         (Ocr._split_languages spec).
Proof. exact (LanguageFacts.split_languages_ok spec). Qed.

(** X2.  [_resolve_language_attempts] never returns an empty list; its
    candidates are non-empty and trimmed; the requested languages (or the
    configured default when none is requested) come first, in their order;
    and every configured fallback language is among the candidates. *)
Theorem resolve_language_attempts_candidates E langs :
  let requested :=
    match langs with
    | Some (String c r) => String c r
    | _ => Ocr._DEFAULT_LANG E
    end in
  let r := Ocr._resolve_language_attempts E langs in
  r ≠ []
  /\ Forall (fun t => PyStr.nonempty t = true /\ PyStr.strip t = t) r
  /\ (Ocr._split_languages (Some requested) `prefix_of` r
      \/ (Ocr._split_languages (Some requested) = [] /\ r = ["eng"]))
  /\ (forall f, f ∈ Ocr._split_languages (Some (Ocr._FALLBACK_LANG E)) -> f ∈ r).
Proof.
  intros requested r. unfold r, Ocr._resolve_language_attempts.
  fold requested.
  pose proof (LanguageFacts.split_languages_ok (Some requested)) as Hreq.
  pose proof (LanguageFacts.split_languages_ok (Some (Ocr._FALLBACK_LANG E)))
    as Hfb.
  destruct (LanguageFacts.add_fallbacks
              (Ocr._split_languages (Some (Ocr._FALLBACK_LANG E)))
              (Ocr._split_languages (Some requested))) as (Hpre & Hall & Hsub).
  cbv zeta in Hpre, Hall, Hsub.
  destruct (fold_left _ _ _) as [|a0 rest] eqn:Hfold.
  - split; [done|]. split; [by repeat constructor|]. split.
    + right. split; [|done]. destruct Hpre as [k Hk].
      by destruct (Ocr._split_languages (Some requested)).
    + intros f Hf. rewrite Forall_forall in Hfb.
      destruct (Hfb f Hf) as [Hne _]. specialize (Hall f Hf Hne).
      by apply elem_of_nil in Hall.
  - split; [done|]. split.
    + apply Forall_forall. intros x Hx. rewrite Forall_forall in Hreq, Hfb.
      destruct (Hsub x Hx) as [H|H];
        [destruct (Hreq x H) as (? & ? & _) | destruct (Hfb x H) as (? & ? & _)];
        done.
    + split; [by left|]. intros f Hf. rewrite Forall_forall in Hfb.
      destruct (Hfb f Hf) as [Hne _]. by apply Hall.
Qed.

(** ** De-duplication of the languages used *)

Module DedupeFacts.
Import PyStr Ocr.

(** The loop of [_dedupe_preserve_order] from any point on: [seen] and
    [result] hold the same items, [result] without repetition. *)
Lemma dedupe_loop items seen result :
  (forall x, x ∈ seen <-> x ∈ result) -> NoDup result ->
  let r := (fold_left
              (fun '(seen, result) item =>
                 if nonempty item && negb (mem item seen)
                 then (item :: seen, result ++ [item])
                 else (seen, result))
              items (seen, result)).2 in
  NoDup r
  /\ (forall x, x ∈ r <-> x ∈ result \/ (x ∈ items /\ x ≠ ""))
  /\ exists extra, r = result ++ extra /\ extra `sublist_of` items.
Proof.
  revert seen result. induction items as [|item items IH];
    intros seen result Hseen Hnd; simpl.
  - split; [done|]. split.
    + intros x. split; [auto|]. intros [?|[Hin _]]; [done|].
      by apply elem_of_nil in Hin.
    + exists []. by rewrite app_nil_r.
  - destruct (nonempty item && negb (mem item seen)) eqn:Hc.
    + apply andb_prop in Hc as [Hne Hm]. apply negb_true_iff in Hm.
      assert (item ∉ result) as Hnot.
      { intros Hin. apply Hseen, LanguageFacts.mem_elem in Hin. congruence. }
      destruct (IH (item :: seen) (result ++ [item])) as (Hnd' & Hmem & extra & Hr & Hsub).
      { intros x. rewrite elem_of_cons, elem_of_app, list_elem_of_singleton, Hseen.
        tauto. }
      { apply NoDup_app. split; [done|]. split.
        - intros x Hx ->%list_elem_of_singleton. done.
        - apply NoDup_singleton. }
      split; [done|]. split.
      * intros x. rewrite Hmem, elem_of_app, list_elem_of_singleton, elem_of_cons.
        split; [|tauto]. intros [[?| ->]|[? ?]]; auto.
        right. split; [by left|]. by destruct item.
      * exists (item :: extra). split; [by rewrite Hr, <- app_assoc|].
        by apply sublist_skip.
    + destruct (IH seen result Hseen Hnd) as (Hnd' & Hmem & extra & Hr & Hsub).
      split; [done|]. split.
      * intros x. rewrite Hmem, elem_of_cons. split; [tauto|].
        intros [?|[[->|?] Hx]]; auto.
        left. apply andb_false_iff in Hc as [Hc|Hc].
        -- by destruct item.
        -- apply negb_false_iff, LanguageFacts.mem_elem in Hc. by apply Hseen.
      * exists extra. split; [done|]. by apply sublist_cons.
Qed.

End DedupeFacts.

(** X3.  [_dedupe_preserve_order] returns the non-empty items of its input,
    each exactly once, in an order that the input has (the result is a
    sublist of the input). *)
Theorem dedupe_preserve_order_spec items :
  NoDup (Ocr._dedupe_preserve_order items)
  /\ (forall x, x ∈ Ocr._dedupe_preserve_order items <-> x ∈ items /\ x ≠ "")
  /\ Ocr._dedupe_preserve_order items `sublist_of` items.
Proof.
  destruct (DedupeFacts.dedupe_loop items [] []) as (Hnd & Hmem & extra & Hr & Hsub);
    [done | constructor |].
  unfold Ocr._dedupe_preserve_order. cbv zeta in Hnd, Hmem, Hr.
  split; [done|]. split.
  - intros x. rewrite Hmem. split; [|auto].
    intros [Hin|?]; [by apply elem_of_nil in Hin|done].
  - by rewrite Hr.
Qed.

(** ** Order of the recognition attempts *)

Module AttemptFacts.
Import Ocr.

Lemma loop_trace_prefix E img cands errors :
  exists k, (_run_tesseract_loop E img cands errors).1
            = map (Recognize img) (take k cands).
Proof.
  revert errors. induction cands as [|lang rest IH]; intros errors.
  - by exists 0%nat.
  - cbn [_run_tesseract_loop]. rewrite OcrFacts.bind_log.
    destruct (image_to_string E img lang) as [out| |exc].
    + by exists 1%nat.
    + by exists 1%nat.
    + destruct (IH (errors ++ [error_msg lang exc])) as [k Hk].
      exists (Datatypes.S k). simpl. by rewrite Hk.
Qed.

(** The page loop only calls the recognition engine. *)
Lemma loop_trace_recognize E img cands errors :
  forallb is_recognize (_run_tesseract_loop E img cands errors).1 = true.
Proof.
  destruct (loop_trace_prefix E img cands errors) as [k ->].
  by induction (take k cands).
Qed.

Lemma run_trace_recognize E img cands :
  forallb is_recognize (_run_tesseract E img cands).1 = true.
Proof.
  unfold _run_tesseract. destruct (pytesseract_installed E); simpl; [|done].
  apply loop_trace_recognize.
Qed.

Lemma ocr_pages_trace_recognize E images cands :
  forallb is_recognize (ocr_pages E images cands).1 = true.
Proof.
  induction images as [|img rest IH]; simpl; [done|].
  pose proof (run_trace_recognize E img cands) as H1.
  destruct (_run_tesseract E img cands) as [t1 [e|[txt l]]]; simpl in *; [done|].
  destruct (ocr_pages E rest cands) as [t2 [e|[txts ls]]]; simpl in *;
    by rewrite ?app_nil_r, forallb_app, H1, IH.
Qed.

End AttemptFacts.

(** X4.  Whatever the engine answers, [_run_tesseract] calls it on the
    prepared image for an initial segment of the candidate list, in the
    order of the list and once per language: no candidate is skipped,
    repeated or tried out of order. *)
Theorem run_tesseract_tries_in_order E img candidates :
  exists k, (Ocr._run_tesseract E img candidates).1
            = map (Ocr.Recognize (Ocr.prepared img)) (take k candidates).
Proof.
  unfold Ocr._run_tesseract. destruct (Ocr.pytesseract_installed E); simpl.
  - apply AttemptFacts.loop_trace_prefix.
  - by exists 0%nat.
Qed.

(** X5.  Once the OCR branch of [_extract_from_pdf] has rasterized the
    PDF, every page image is closed, exactly once and after the last
    recognition call, whether recognition succeeded or raised: the trace is
    the rasterizer call, then recognition calls only, then one close per
    page. *)
Theorem pdf_ocr_closes_every_page E path langs :
  Ocr.direct_text_phase E path = None ->
  Ocr.convert_from_path_installed E = true ->
  exists t,
    (Ocr._extract_from_pdf E path langs).1
    = Ocr.Rasterize path (Ocr._PDF_DPI E) :: t
      ++ map Ocr.Close (Ocr.convert_from_path E path (Ocr._PDF_DPI E))
    /\ forallb Ocr.is_recognize t = true.
Proof.
  intros Hd Hc. unfold Ocr._extract_from_pdf. rewrite Hd, Hc. cbn [negb].
  rewrite OcrFacts.bind_log.
  destruct (Ocr.convert_from_path E path (Ocr._PDF_DPI E)) as [|img images] eqn:Hi.
  { by exists []. }
  pose proof (AttemptFacts.ocr_pages_trace_recognize E (img :: images)
                (Ocr._resolve_language_attempts E langs)) as Ht.
  unfold Ocr.finally, Ocr.bind.
  destruct (Ocr.ocr_pages E (img :: images) _) as [t [e|[txts ls]]];
    exists t; simpl in *; by rewrite ?app_nil_r.
Qed.

Lemma pdf_ocr_closes_every_page_witness :
  let E := OcrFixture.env0 OcrFixture.no_binary (Some []) in
  Ocr._extract_from_pdf E "scan.pdf" None
  = ([Ocr.Rasterize "scan.pdf" 300;
      Ocr.Recognize (Ocr.prepared OcrFixture.scan) "vie+eng";
      Ocr.Close OcrFixture.scan; Ocr.Close OcrFixture.blank],
     inl (Ocr.OCRError Ocr.not_found_msg))
  /\ exists t,
       (Ocr._extract_from_pdf E "scan.pdf" None).1
       = Ocr.Rasterize "scan.pdf" 300 :: t
         ++ [Ocr.Close OcrFixture.scan; Ocr.Close OcrFixture.blank]
       /\ forallb Ocr.is_recognize t = true.
Proof.
  intros E. split; [reflexivity|].
  exact (pdf_ocr_closes_every_page E "scan.pdf" None eq_refl eq_refl).
Defined.

(** ** The OCR branch of the PDF extraction *)

Module PdfOcrFacts.
Import Ocr.

Lemma ocr_pages_all E cands images (outs : list (list event * (string * string))) :
  Forall2 (fun img r => _run_tesseract E img cands = (r.1, inr r.2)) images outs ->
  ocr_pages E images cands
  = (concat (map fst outs),
     inr (map (fun r => r.2.1) outs, map (fun r => r.2.2) outs)).
Proof.
  induction 1 as [|img [t [txt l]] images outs Hrun _ IH]; [done|].
  simpl in *. rewrite Hrun, IH. simpl. by rewrite app_nil_r.
Qed.

End PdfOcrFacts.

(** X6.  When the direct-text phase gives nothing and recognition succeeds
    on every rasterized page, [_extract_from_pdf] returns the trimmed page
    texts that are not blank, joined by a blank line, with source
    "pdf_ocr", [used_ocr] true, a page count equal to the number of
    rasterized pages (blank ones included) and, as languages, the
    de-duplicated winners of the pages in page order. *)
Theorem pdf_ocr_result E path langs
    (outs : list (list Ocr.event * (string * string))) :
  Ocr.direct_text_phase E path = None ->
  Ocr.convert_from_path_installed E = true ->
  Ocr.convert_from_path E path (Ocr._PDF_DPI E) ≠ [] ->
  Forall2 (fun img r =>
             Ocr._run_tesseract E img (Ocr._resolve_language_attempts E langs)
             = (r.1, inr r.2))
          (Ocr.convert_from_path E path (Ocr._PDF_DPI E)) outs ->
  Ocr._extract_from_pdf E path langs
  = (Ocr.Rasterize path (Ocr._PDF_DPI E) :: concat (map fst outs)
       ++ map Ocr.Close (Ocr.convert_from_path E path (Ocr._PDF_DPI E)),
     inr {| Ocr.text :=
              PyStr.strip
                (PyStr.join Ocr.nl2
                   (omap (fun chunk =>
                            if PyStr.nonempty (PyStr.strip chunk)
                            then Some (PyStr.strip chunk) else None)
                         (map (fun r => r.2.1) outs)));
            Ocr.metadata :=
              {| Ocr.engine := "tesseract"; Ocr.source := "pdf_ocr";
                 Ocr.page_count :=
                   Some (length (Ocr.convert_from_path E path (Ocr._PDF_DPI E)));
                 Ocr.languages :=
                   Some (Ocr.Languages
                           (Ocr._dedupe_preserve_order
                              (map (fun r => r.2.2) outs)));
                 Ocr.used_ocr := true |} |}).
Proof.
  intros Hd Hc Hne Hall. unfold Ocr._extract_from_pdf. rewrite Hd, Hc.
  cbn [negb]. rewrite OcrFacts.bind_log.
  destruct (Ocr.convert_from_path E path (Ocr._PDF_DPI E)) as [|img images] eqn:Hi;
    [done|].
  rewrite (PdfOcrFacts.ocr_pages_all _ _ _ _ Hall).
  unfold Ocr.finally, Ocr.bind. simpl. by rewrite app_nil_r.
Qed.

Lemma pdf_ocr_result_witness :
  let E := OcrFixture.env0 OcrFixture.reads_all (Some []) in
  Ocr._extract_from_pdf E "scan.pdf" None
  = ([Ocr.Rasterize "scan.pdf" 300;
      Ocr.Recognize (Ocr.prepared OcrFixture.scan) "vie+eng";
      Ocr.Recognize OcrFixture.blank "vie+eng";
      Ocr.Close OcrFixture.scan; Ocr.Close OcrFixture.blank],
     inr {| Ocr.text := "Hello";
            Ocr.metadata :=
              {| Ocr.engine := "tesseract"; Ocr.source := "pdf_ocr";
                 Ocr.page_count := Some 2%nat;
                 Ocr.languages := Some (Ocr.Languages ["vie+eng"]);
                 Ocr.used_ocr := true |} |}).
Proof.
  intros E.
  refine (pdf_ocr_result E "scan.pdf" None
            [([Ocr.Recognize (Ocr.prepared OcrFixture.scan) "vie+eng"],
              ("Hello", "vie+eng"));
             ([Ocr.Recognize OcrFixture.blank "vie+eng"], ("", "vie+eng"))]
            eq_refl eq_refl _ _).
  - discriminate.
  - repeat constructor.
Defined.



(** ** File name suffixes *)

Module SuffixFacts.
Import PyStr Ocr.

Lemma from_last_dot_none s :
  from_last_dot s = None ->
  forallb_str (fun c => negb (Ascii.eqb c ".")) s = true.
Proof.
  induction s as [|c s IH]; simpl; [done|].
  destruct (from_last_dot s); [done|].
  destruct (Ascii.eqb c "."); [done|]. intros _. by rewrite IH.
Qed.

Lemma from_last_dot_some s x :
  from_last_dot s = Some x ->
  exists pre rest,
    s = pre +:+ x /\ x = String "." rest
    /\ forallb_str (fun c => negb (Ascii.eqb c ".")) rest = true.
Proof.
  revert x. induction s as [|c s IH]; intros x; simpl; [done|].
  destruct (from_last_dot s) as [x'|] eqn:Hs.
  - intros [= <-]. destruct (IH x' eq_refl) as (pre & rest & -> & -> & Hrest).
    by exists (String c pre), rest.
  - destruct (Ascii.eqb c ".") eqn:Hc; [|done]. intros [= <-].
    apply Ascii.eqb_eq in Hc as ->.
    exists EmptyString, s. split; [done|]. split; [done|].
    by apply from_last_dot_none.
Qed.

Lemma from_last_dot_app stem ext :
  forallb_str (fun c => negb (Ascii.eqb c ".")) ext = true ->
  from_last_dot (stem +:+ String "." ext) = Some (String "." ext).
Proof.
  intros Hext. induction stem as [|c stem IH]; simpl.
  - destruct (from_last_dot ext) as [x|] eqn:Hx; [|done].
    apply from_last_dot_some in Hx as (pre & rest & -> & -> & _).
    rewrite PyStrFacts.forallb_str_app in Hext. simpl in Hext.
    by rewrite andb_false_r in Hext.
  - by rewrite IH.
Qed.

Lemma lower_char_dot c : Ascii.eqb (lower_char c) "." = Ascii.eqb c ".".
Proof. destruct c as [[] [] [] [] [] [] [] []]; reflexivity. Qed.

Lemma lower_char_idem c : lower_char (lower_char c) = lower_char c.
Proof. destruct c as [[] [] [] [] [] [] [] []]; reflexivity. Qed.

Lemma lower_idem s : lower (lower s) = lower s.
Proof.
  induction s as [|c s IH]; simpl; [done|]. by rewrite lower_char_idem, IH.
Qed.

Lemma from_last_dot_lower s :
  from_last_dot (lower s) = lower <$> from_last_dot s.
Proof.
  induction s as [|c s IH]; simpl; [done|]. rewrite IH.
  destruct (from_last_dot s); simpl; [done|].
  rewrite lower_char_dot. by destruct (Ascii.eqb c ".").
Qed.

Lemma suffix_of_name_lower name :
  suffix_of_name (lower name) = lower (suffix_of_name name).
Proof.
  destruct name as [|c0 s]; simpl; [done|]. rewrite from_last_dot_lower.
  by destruct (from_last_dot s) as [[|d [|c x]]|].
Qed.

End SuffixFacts.

(** X8.  The suffix of a file name: a name "stem.ext" with a non-empty stem
    and a non-empty extension without dots has the suffix ".ext"; and
    whenever the suffix is not empty, it is a dot followed by at least one
    character, none of them a dot, after a non-empty stem.  (So "a.tar.gz"
    has ".gz", and ".bashrc" and "a." have none.) *)
Theorem suffix_of_name_spec :
  (forall c0 stem c ext,
     PyStr.forallb_str (fun c => negb (Ascii.eqb c ".")) (String c ext) = true ->
     Ocr.suffix_of_name (String c0 stem +:+ String "." (String c ext))
     = String "." (String c ext))
  /\ (forall name,
        Ocr.suffix_of_name name = ""
        \/ exists c0 stem c ext,
             name = String c0 stem +:+ Ocr.suffix_of_name name
             /\ Ocr.suffix_of_name name = String "." (String c ext)
             /\ PyStr.forallb_str (fun c => negb (Ascii.eqb c ".")) (String c ext)
                = true)
  /\ Ocr.suffix_of_name "a.tar.gz" = ".gz"
  /\ Ocr.suffix_of_name ".bashrc" = ""
  /\ Ocr.suffix_of_name "a." = "".
Proof.
  split; [|split; [|by repeat split]].
  - intros c0 stem c ext Hext. simpl.
    change (stem +:+ String "." (String c ext))
      with (stem +:+ String "." (String c ext)).
    by rewrite (SuffixFacts.from_last_dot_app stem (String c ext) Hext).
  - intros [|c0 s]; [by left|]. simpl.
    destruct (Ocr.from_last_dot s) as [x|] eqn:Hx; [|by left].
    apply SuffixFacts.from_last_dot_some in Hx as (pre & rest & -> & -> & Hrest).
    destruct rest as [|c ext]; [by left|]. right.
    by exists c0, pre, c, ext.
Qed.

(** X9.  Extension matching ignores case: [is_supported] answers the same
    for a file name and for its lower-cased form. *)
Theorem is_supported_ignores_case E E' path :
  Ocr.path_name E' path = PyStr.lower (Ocr.path_name E path) ->
  Ocr.is_supported E' path = Ocr.is_supported E path.
Proof.
  intros Hname. unfold Ocr.is_supported, Ocr.suffix.
  by rewrite Hname, SuffixFacts.suffix_of_name_lower, SuffixFacts.lower_idem.
Qed.

Lemma is_supported_ignores_case_witness :
  let E := OcrFixture.env0 OcrFixture.reads_all None in
  Ocr.is_supported E "scan.pdf" = Ocr.is_supported E "SCAN.PDF"
  /\ Ocr.is_supported E "SCAN.PDF" = true.
Proof.
  pose (E := OcrFixture.env0 OcrFixture.reads_all None).
  pose (E' := {| Ocr.pytesseract_installed := true; Ocr.Image_installed := true;
                 Ocr.convert_from_path_installed := true;
                 Ocr.PdfReader_installed := true;
                 Ocr._DEFAULT_LANG := "vie+eng"; Ocr._FALLBACK_LANG := "eng";
                 Ocr._PDF_DPI := 300; Ocr.path_exists := fun _ => true;
                 Ocr.path_name := fun _ => "scan.pdf";
                 Ocr.Image_open := Ocr.Image_open E;
                 Ocr.PdfReader_pages := Ocr.PdfReader_pages E;
                 Ocr.convert_from_path := Ocr.convert_from_path E;
                 Ocr.image_to_string := Ocr.image_to_string E |}).
  pose proof (is_supported_ignores_case E E' "SCAN.PDF" eq_refl) as H.
  split; [|reflexivity]. exact (eq_trans eq_refl H).
Defined.

(** ** Bumping and parsing versions *)


(** ** The merged metadata of an upload *)

(** X11.  The metadata an upload stores is the prior metadata with
    [version] set to the new version; every key other than [version] and
    the four upload fields keeps its value; with a file name the four
    upload fields are set from the file, and without one (absent or empty)
    nothing but [version] changes, so the provenance of an earlier upload
    stays. *)
Theorem new_metadata_merge meta nv file raw :
  Api.new_metadata meta nv file raw !! "version" = Some (JStr nv)
  /\ (forall k,
        k ∉ ["version"; "last_upload_filename"; "last_upload_mime";
             "file_path"; "file_size"] ->
        Api.new_metadata meta nv file raw !! k = meta !! k)
  /\ (Api.str_or (Api.filename file) "" = "" ->
      Api.new_metadata meta nv file raw = <["version" := JStr nv]> meta)
  /\ (forall name,
        Api.filename file = Some name -> name ≠ "" ->
        Api.new_metadata meta nv file raw !! "last_upload_filename"
        = Some (JStr name)
        /\ Api.new_metadata meta nv file raw !! "file_path" = Some (JStr name)
        /\ Api.new_metadata meta nv file raw !! "last_upload_mime"
           = Some (Api.opt_str (Api.content_type file))
        /\ Api.new_metadata meta nv file raw !! "file_size"
           = Some (JNum (Z.of_nat (length raw)))).
Proof.
  unfold Api.new_metadata. split; [|split; [|split]].
  - destruct (Api.filename file) as [[|c r]|];
      rewrite ?lookup_insert_ne by done; by rewrite lookup_insert_eq.
  - intros k Hk.
    assert (k ≠ "version" /\ k ≠ "last_upload_filename"
            /\ k ≠ "last_upload_mime" /\ k ≠ "file_path" /\ k ≠ "file_size")
      as (? & ? & ? & ? & ?).
    { repeat split; intros ->; apply Hk; set_solver. }
    destruct (Api.filename file) as [[|c r]|];
      by rewrite !lookup_insert_ne by done.
  - by destruct (Api.filename file) as [[|c r]|].
  - intros name -> Hne. destruct name as [|c r]; [done|].
    repeat split; rewrite ?lookup_insert_ne by done; by rewrite lookup_insert_eq.
Qed.

(** ** Documents do not interfere *)

Module IsolationFacts.
Import Api Reindex.



End IsolationFacts.


(** ** Requests that are refused *)

Module RejectFacts.
Import Api TxFacts.

Lemma strip_nonempty_nonempty s :
  PyStr.nonempty (PyStr.strip s) = true -> PyStr.nonempty s = true.
Proof. by destruct s. Qed.

(** The document lookup needs only its own statement to work. *)
Lemma get_document_core_ok_at S document_id id st :
  parse_uuid S document_id = Some id -> tx_failed st = false ->
  faults S SelectDocument = None ->
  _get_document_core S document_id st
  = (inr (documents (tx_db st) !! id),
     {| tx_db := tx_db st; tx_failed := false |}).
Proof.
  intros Hid Hf Hs. unfold _get_document_core, uuid_arg. rewrite Hid.
  erewrite bind_ok; [|done]. by rewrite statement_ok.
Qed.

End RejectFacts.

(** X13.  [upload_new_version] refuses, in this order and without writing
    anything: a blank change summary with status 400, even when the file and
    the document are bad as well; then a file that cannot be read with
    status 400 and the reason; then a document id that is not a UUID; then
    a document that does not exist with status 404. *)
Theorem upload_rejections S document_id created_by file change_summary bump
    version d :
  (PyStr.nonempty (PyStr.strip change_summary) = false ->
   Api.upload_new_version S document_id created_by file change_summary bump
     version d
   = (inl (Api.HTTPException 400 "change_summary is required"), d))
  /\ (forall e,
        PyStr.nonempty (PyStr.strip change_summary) = true ->
        Api.read file = inl e ->
        Api.upload_new_version S document_id created_by file change_summary
          bump version d
        = (inl (Api.HTTPException 400 ("Failed to read file: " +:+ e)), d))
  /\ (forall raw,
        PyStr.nonempty (PyStr.strip change_summary) = true ->
        Api.read file = inr raw ->
        Api.parse_uuid S document_id = None ->
        Api.upload_new_version S document_id created_by file change_summary
          bump version d
        = (inl (Api.DataError document_id), d))
  /\ (forall raw id,
        PyStr.nonempty (PyStr.strip change_summary) = true ->
        Api.read file = inr raw ->
        Api.parse_uuid S document_id = Some id ->
        Api.faults S Api.SelectDocument = None ->
        Api.documents d !! id = None ->
        Api.upload_new_version S document_id created_by file change_summary
          bump version d
        = (inl (Api.HTTPException 404 "Document not found"), d)).
Proof.
  unfold Api.upload_new_version. split; [|split; [|split]].
  - intros ->. by rewrite orb_true_r.
  - intros e Hcs Hread.
    rewrite Hcs, (RejectFacts.strip_nonempty_nonempty _ Hcs). simpl.
    unfold Api.read_new_content. by rewrite Hread.
  - intros raw Hcs Hread Hid.
    rewrite Hcs, (RejectFacts.strip_nonempty_nonempty _ Hcs). simpl.
    destruct file as [fn ct rd]. simpl in Hread. subst rd.
    rewrite DecodeFacts.read_new_content_ok.
    unfold Api.transaction, Api.upload_body, Api._get_document_core,
      Api.uuid_arg, Api.bind. by rewrite Hid.
  - intros raw id Hcs Hread Hid Hf Hdoc.
    rewrite Hcs, (RejectFacts.strip_nonempty_nonempty _ Hcs). simpl.
    destruct file as [fn ct rd]. simpl in Hread. subst rd.
    rewrite DecodeFacts.read_new_content_ok.
    unfold Api.transaction, Api.upload_body.
    erewrite TxFacts.bind_ok;
      [|by apply (RejectFacts.get_document_core_ok_at S document_id id)].
    simpl. by rewrite Hdoc.
Qed.

(** X14.  [rollback_version] refuses without writing anything: a snapshot
    that does not exist (for this document) with status 404 "Version not
    found", before it even looks for the document; and an existing snapshot
    of a document that does not exist with status 404 "Document not
    found". *)
Theorem rollback_rejections S document_id version_id d did vid :
  Api.parse_uuid S document_id = Some did ->
  Api.parse_uuid S version_id = Some vid ->
  Api.faults S Api.SelectVersion = None ->
  (Api.find_version did vid d = None ->
   Api.rollback_version S document_id version_id d
   = (inl (Api.HTTPException 404 "Version not found"), d))
  /\ (forall ver,
        Api.find_version did vid d = Some ver ->
        Api.faults S Api.SelectDocument = None ->
        Api.documents d !! did = None ->
        Api.rollback_version S document_id version_id d
        = (inl (Api.HTTPException 404 "Document not found"), d)).
Proof.
  intros Hdid Hvid Hsel.
  unfold Api.rollback_version, Api.transaction, Api.rollback_body, Api.uuid_arg.
  rewrite Hdid, Hvid.
  erewrite TxFacts.bind_ok; [|done]. erewrite TxFacts.bind_ok; [|done].
  erewrite TxFacts.bind_ok; [|by apply TxFacts.statement_ok].
  simpl. split.
  - by intros ->.
  - intros ver -> Hf Hdoc.
    erewrite TxFacts.bind_ok;
      [|by apply (RejectFacts.get_document_core_ok_at S document_id did)].
    simpl. by rewrite Hdoc.
Qed.

Lemma rollback_rejections_witness :
  Api.rollback_version (Fixture.services0 Fixture.no_faults) "7" "555"
    Fixture.db1
  = (inl (Api.HTTPException 404 "Version not found"), Fixture.db1)
  /\ Api.rollback_version (Fixture.services0 Fixture.no_faults) "8" "555"
       Fixture.db1
     = (inl (Api.HTTPException 404 "Version not found"), Fixture.db1).
Proof.
  split.
  - exact (proj1 (rollback_rejections (Fixture.services0 Fixture.no_faults)
                    "7" "555" Fixture.db1 7 555 eq_refl eq_refl eq_refl)
             eq_refl).
  - exact (proj1 (rollback_rejections (Fixture.services0 Fixture.no_faults)
                    "8" "555" Fixture.db1 8 555 eq_refl eq_refl eq_refl)
             eq_refl).
Defined.

(** ** Rollback followed by other calls *)

(** X15.  After a successful rollback of a document whose history is
    consistent, the next successful upload to it appends its snapshot and
    nothing else: the version the rollback restored is already in the
    history, so no second baseline row is written. *)
Theorem rollback_then_upload_no_baseline S1 S2 document_id1 document_id2 id
    version_id created_by file change_summary bump version d d1 d2 v nv :
  History.history_consistent id d ->
  Api.parse_uuid S1 document_id1 = Some id ->
  Api.parse_uuid S2 document_id2 = Some id ->
  Api.rollback_version S1 document_id1 version_id d = (inr v, d1) ->
  Api.upload_new_version S2 document_id2 created_by file change_summary bump
    version d1 = (inr nv, d2) ->
  exists snap,
    Api.document_versions d2 = Api.document_versions d ++ [snap]
    /\ Api.ver_version snap = nv
    /\ Api.ver_change_summary snap = change_summary.
Proof.
  intros Hwf Hid1 Hid2 Hrb Hup.
  apply ReindexFacts.rollback_inr in Hrb as (ver & _ & Hrb).
  destruct (HistoryFacts.rollback_history _ _ _ _ _ _ _ Hid1 Hrb)
    as (Hv1 & _ & Hcur).
  specialize (Hcur Hwf).
  apply ReindexFacts.upload_inr in Hup.
  destruct Hup as (id' & doc & raw & new_content & cv' & bl & chs & embedded
                   & Hid' & Hdoc & _ & H).
  assert (id' = id) as -> by congruence. cbv zeta in H.
  destruct H as (_ & _ & Hbl & _ & _ & _ & _ & Hv2 & _).
  specialize (Hcur _ Hdoc).
  destruct Hbl as [->|[Hno _]]; [|congruence].
  eexists. split; [by rewrite Hv2, Hv1|]. by split.
Qed.

Lemma rollback_then_upload_no_baseline_witness :
  let S := Fixture.services0 Fixture.no_faults in
  let d2 := (Api.rollback_version S "7" "100" Fixture.db1).2 in
  let d3 := (Api.upload_new_version S "7" None Fixture.file_latin "accents"
               "minor" None d2).2 in
  map Api.ver_version (Api.document_versions d3) = ["1.0"; "1.1"; "1.1"]
  /\ exists snap,
       Api.document_versions d3 = Api.document_versions Fixture.db1 ++ [snap]
       /\ Api.ver_version snap = "1.1"
       /\ Api.ver_change_summary snap = "accents".
Proof.
  intros S d2 d3. split; [vm_compute; reflexivity|].
  refine (rollback_then_upload_no_baseline S S "7" "7" 7 "100" None
            Fixture.file_latin "accents" "minor" None Fixture.db1 d2 d3
            "1.0" "1.1" _ eq_refl eq_refl _ _).
  - intros row Hin _. vm_compute in Hin.
    apply elem_of_cons in Hin as [->|Hin]; [reflexivity|].
    apply elem_of_cons in Hin as [->|Hin]; [reflexivity|].
    by apply elem_of_nil in Hin.
  - vm_compute. reflexivity.
  - vm_compute. reflexivity.
Defined.

(** X16.  After a successful rollback to a snapshot, comparing "current"
    with that snapshot (with queries that work) diffs a list of lines
    against itself: the document's content and the snapshot's content are
    the same text. *)
Theorem rollback_then_compare_same_text S S2 document_id version_id d d' v :
  Api.rollback_version S document_id version_id d = (inr v, d') ->
  Api.parse_uuid S2 = Api.parse_uuid S ->
  (forall s, Api.faults S2 s = None) ->
  version_id ≠ "" -> version_id ≠ "current" ->
  exists lines,
    Api.compare_versions S2 document_id
      {| Api.left_version_id := None; Api.right_version_id := None;
         Api.left := Some "current"; Api.right := Some version_id |} d'
    = inr (concat (Api.unified_diff S2 lines lines "current" version_id)).
Proof.
  intros Hrb Hparse Hnf Hne Hcur.
  apply ReindexFacts.rollback_inr in Hrb
    as (ver & _ & did & vid & doc & chs & embedded & Hdid & Hvid & Hver & Hdoc & H).
  cbv zeta in H. destruct H as (_ & _ & _ & Hv & Hd).
  rewrite <- Hparse in Hdid, Hvid.
  exists (PyText.splitlines (default [] (Api.ver_content ver))).
  destruct version_id as [|c r]; [done|].
  unfold Api.compare_versions.
  cbn [Api.left Api.right Api.left_version_id Api.right_version_id
       Api.opt_or Api.str_or].
  rewrite (CompareFacts.get_content_current S2 document_id did Hdid Hnf).
  rewrite (CompareFacts.get_content_snapshot S2 document_id did Hdid Hnf
             (String c r) vid d' Hne Hcur Hvid).
  rewrite Hd. unfold Reindex.updated_documents. rewrite lookup_alter_eq, Hdoc.
  simpl. unfold Api.find_version in *. by rewrite Hv, Hver.
Qed.

Lemma rollback_then_compare_same_text_witness :
  let S := Fixture.services0 Fixture.no_faults in
  let d2 := (Api.rollback_version S "7" "100" Fixture.db1).2 in
  Api.compare_versions S "7"
    {| Api.left_version_id := None; Api.right_version_id := None;
       Api.left := Some "current"; Api.right := Some "100" |} d2
  = inr []
  /\ exists lines,
       Api.compare_versions S "7"
         {| Api.left_version_id := None; Api.right_version_id := None;
            Api.left := Some "current"; Api.right := Some "100" |} d2
       = inr (concat (Api.unified_diff S lines lines "current" "100")).
Proof.
  intros S d2. split; [vm_compute; reflexivity|].
  refine (rollback_then_compare_same_text S S "7" "100" Fixture.db1 d2 "1.0"
            _ eq_refl (fun _ => eq_refl) _ _).
  - vm_compute. reflexivity.
  - discriminate.
  - discriminate.
Defined.



(** ** UTF-8 decoding *)

Module Utf8Facts.
Import PyText.

Ltac bool_to_N :=
  repeat (unfold cont, second3, second4 in *; unfold in_range in *;
          match goal with
         | H : _ && _ = true |- _ => apply andb_prop in H as [? ?]
         | H : (_ <=? _) = true |- _ => apply N.leb_le in H
         | H : (_ <=? _) = false |- _ => apply N.leb_gt in H
         | H : (_ <? _) = true |- _ => apply N.ltb_lt in H
         | H : (_ <? _) = false |- _ => apply N.ltb_ge in H
         | H : (_ =? _) = true |- _ => apply N.eqb_eq in H
         | H : (_ =? _) = false |- _ => apply N.eqb_neq in H
          | H : (if ?b then _ else _) = true |- _ => destruct b eqn:?
          end).

Lemma decode_ascii raw :
  Forall (fun b => Byte.to_N b < 128) raw ->
  decode_utf8 raw = Some (map Byte.to_N raw).
Proof.
  induction 1 as [|b raw Hb _ IH]; [done|].
  cbn [decode_utf8]. apply N.ltb_lt in Hb. by rewrite Hb, IH.
Qed.

Lemma decode_valid_le n raw t :
  (length raw <= n)%nat ->
  decode_utf8 raw = Some t ->
  Forall (fun c => c <= 1114111 /\ (c < 55296 \/ 57343 < c)) t
  /\ (length t <= length raw)%nat.
Proof.
  revert raw t. induction n as [|n IH]; intros raw t Hn Hdec.
  { destruct raw; [|simpl in Hn; lia]. injection Hdec as <-. by split. }
  destruct raw as [|x0 r0]; [injection Hdec as <-; by split|].
  cbn [decode_utf8] in Hdec. simpl in Hn.
  repeat (case_match; try discriminate); subst;
    match type of Hdec with
    | cons _ <$> decode_utf8 ?r = Some _ =>
        destruct (decode_utf8 r) as [t'|] eqn:Hr; [|discriminate];
        simpl in Hdec; injection Hdec as <-;
        apply IH in Hr as [Hall Hlen]; [|simpl in *; lia];
        split; [|simpl in *; lia];
        constructor; [|exact Hall]
    end;
    repeat match goal with
           | |- context [Byte.to_N ?x] => generalize dependent (Byte.to_N x); intros
           end;
    bool_to_N; lia.
Qed.

End Utf8Facts.

(** X18.  [decode_utf8] reads bytes below 128 as themselves, and whatever
    it accepts is a sequence of Unicode scalar values: every code point is
    at most U+10FFFF and none is a surrogate (U+D800..U+DFFF); the text is
    never longer than the bytes. *)
Theorem decode_utf8_scalar_values :
  (forall raw,
     Forall (fun b => Byte.to_N b < 128) raw ->
     PyText.decode_utf8 raw = Some (map Byte.to_N raw))
  /\ (forall raw t,
        PyText.decode_utf8 raw = Some t ->
        Forall (fun c => c <= 1114111 /\ (c < 55296 \/ 57343 < c)) t
        /\ (length t <= length raw)%nat).
Proof.
  split; [exact Utf8Facts.decode_ascii|].
  intros raw t. by apply (Utf8Facts.decode_valid_le (length raw)).
Qed.

(** ** Line splitting *)

Module LinesFacts.
Import PyText.

Lemma splitlines_nonempty_le n t :
  (length t <= n)%nat -> Forall (fun l => l ≠ []) (splitlines t).
Proof.
  revert t. induction n as [|n IH]; intros t Hn.
  { destruct t; [constructor | simpl in Hn; lia]. }
  destruct t as [|c r]; [constructor|]. simpl in Hn.
  cbn [splitlines].
  assert (Forall (fun l : text => l ≠ []) (splitlines r)) as Hr
    by (apply IH; lia).
  destruct (c =? 13).
  - destruct r as [|c1 r']; [by repeat constructor|].
    destruct (c1 =? 10); constructor; try done.
    apply IH. simpl in Hn. lia.
  - destruct (is_linebreak c); [by constructor|].
    destruct r as [|c1 r']; [by repeat constructor|].
    destruct (splitlines (c1 :: r')) as [|h tl]; [by repeat constructor|].
    inversion Hr; subst. by constructor.
Qed.

(** A run of characters without line boundary, then a terminator. *)
Lemma splitlines_line l term rest :
  Forall (fun c => c ≠ 13 /\ is_linebreak c = false) l ->
  splitlines (term ++ rest) = term :: splitlines rest ->
  splitlines (l ++ term ++ rest) = (l ++ term) :: splitlines rest.
Proof.
  intros Hl Hterm. induction Hl as [|c l [Hc Hb] _ IH]; [done|].
  cbn [app splitlines]. apply N.eqb_neq in Hc. rewrite Hc, Hb, IH.
  by destruct (l ++ term ++ rest).
Qed.

Lemma splitlines_last l :
  Forall (fun c => c ≠ 13 /\ is_linebreak c = false) l -> l ≠ [] ->
  splitlines l = [l].
Proof.
  induction 1 as [|c l [Hc Hb] Hl IH]; [done|]. intros _.
  cbn [splitlines]. apply N.eqb_neq in Hc. rewrite Hc, Hb.
  destruct l as [|c1 l']; [done|]. by rewrite IH.
Qed.

End LinesFacts.

(** X19.  [splitlines] with kept terminators never yields an empty line; a
    run of characters without line boundary that ends in LF, or in CR LF,
    is one line, terminator included, and the rest is split on its own
    (CR LF counts as one terminator, not two); and a non-empty text
    without any line boundary is a single line. *)
Theorem splitlines_lines :
  (forall t, Forall (fun l => l ≠ []) (PyText.splitlines t))
  /\ (forall l rest,
        Forall (fun c => c ≠ 13 /\ PyText.is_linebreak c = false) l ->
        PyText.splitlines (l ++ [10] ++ rest)
        = (l ++ [10]) :: PyText.splitlines rest)
  /\ (forall l rest,
        Forall (fun c => c ≠ 13 /\ PyText.is_linebreak c = false) l ->
        PyText.splitlines (l ++ [13; 10] ++ rest)
        = (l ++ [13; 10]) :: PyText.splitlines rest)
  /\ (forall l,
        Forall (fun c => c ≠ 13 /\ PyText.is_linebreak c = false) l ->
        l ≠ [] -> PyText.splitlines l = [l]).
Proof.
  split; [|split; [|split]].
  - intros t. by apply (LinesFacts.splitlines_nonempty_le (length t)).
  - intros l rest Hl. by apply LinesFacts.splitlines_line.
  - intros l rest Hl. by apply LinesFacts.splitlines_line.
  - exact LinesFacts.splitlines_last.
Qed.

(** ** Stored password hashes *)

Module PasswordFacts.
Import PyStr DbUtils.

Lemma lower_hex_char c : is_lower_hex c = true -> lower_char c = c.
Proof. destruct c as [[] [] [] [] [] [] [] []]; vm_compute; congruence. Qed.

Lemma lower_hex_fixed s : forallb_str is_lower_hex s = true -> lower s = s.
Proof.
  induction s as [|c s IH]; simpl; [done|].
  intros [Hc Hs]%andb_prop. by rewrite (lower_hex_char _ Hc), IH.
Qed.

Lemma hex_not_dollar c :
  is_lower_hex (lower_char c) = true -> Ascii.eqb "$" c = false.
Proof. destruct c as [[] [] [] [] [] [] [] []]; vm_compute; congruence. Qed.

Lemma hex_not_bcrypt s :
  forallb_str is_lower_hex (lower s) = true -> startswith "$2" s = false.
Proof.
  destruct s as [|c s]; [done|]. intros H. simpl in H.
  apply andb_prop in H as [Hc _]. cbn [startswith].
  by rewrite (hex_not_dollar _ Hc).
Qed.

End PasswordFacts.

(** X20.  A stored hash of 64 hexadecimal digits is only ever compared
    with the SHA-256 digest of the password, never with the password itself
    and never through bcrypt; and since the digest is in lower case while
    the stored hash is compared as it is, a stored digest written with an
    upper-case digit is accepted for no password at all. *)
Theorem verify_password_sha_shape K stored :
  String.length stored = 64%nat ->
  PyStr.forallb_str DbUtils.is_lower_hex (PyStr.lower stored) = true ->
  (forall password,
     DbUtils.verify_password K password (Some stored)
     = String.eqb (DbUtils._sha256 K password) stored)
  /\ ((forall password,
         PyStr.forallb_str DbUtils.is_lower_hex (DbUtils._sha256 K password)
         = true) ->
      PyStr.lower stored ≠ stored ->
      forall password, DbUtils.verify_password K password (Some stored) = false).
Proof.
  intros Hlen Hhex.
  assert (forall password,
            DbUtils.verify_password K password (Some stored)
            = String.eqb (DbUtils._sha256 K password) stored) as Hsha.
  { intros password. unfold DbUtils.verify_password.
    destruct stored as [|c s]; [done|].
    by rewrite (PasswordFacts.hex_not_bcrypt _ Hhex), Hlen, Hhex. }
  split; [exact Hsha|].
  intros Hdigest Hupper password. rewrite Hsha.
  apply String.eqb_neq. intros Heq. apply Hupper.
  apply PasswordFacts.lower_hex_fixed. rewrite <- Heq. apply Hdigest.
Qed.

Lemma verify_password_sha_shape_witness :
  let upper :=
    "9F86D081884C7D659A2FEAA0C55AD015A3BF4F1B2B0B822CD15D6C15B0F00A08" in
  PyStr.lower upper = DbUtils._sha256 DbUtils.toy_crypto "test"
  /\ DbUtils.verify_password DbUtils.toy_crypto "test" (Some upper) = false
  /\ DbUtils.verify_password DbUtils.toy_crypto "test" (Some (PyStr.lower upper))
     = true.
Proof.
  intros upper. split; [reflexivity|]. split; [|reflexivity].
  refine (proj2 (verify_password_sha_shape DbUtils.toy_crypto upper
                   eq_refl eq_refl) _ _ "test").
  - intros password. reflexivity.
  - discriminate.
Defined.

(** ** The default version of an upload *)

Module DefaultVersionFacts.
Import Api.

(** The baseline step may replace an absent current version by "1.0"; both
    parse alike. *)
Lemma baseline_keeps_parse cv cv' :
  cv' = cv \/ (truthy cv = false /\ cv' = JStr (prev_ver cv)) ->
  _parse_version cv' = _parse_version cv.
Proof.
  intros [->|[Hf ->]]; [done|].
  unfold _parse_version at 2. rewrite Hf. simpl.
  destruct cv as [|b|z|s|r t]; simpl in *; try done.
  destruct s; [done|discriminate].
Qed.

End DefaultVersionFacts.

(** X21.  When no explicit version is given (absent or blank), the version
    a successful upload answers is the bump of the version stored in the
    document's metadata before the upload, whether or not the baseline
    step ran or replaced an absent version by "1.0". *)
Theorem upload_default_version S document_id created_by file change_summary
    bump version d nv d' :
  PyStr.nonempty (PyStr.strip (default "" version)) = false ->
  Api.upload_new_version S document_id created_by file change_summary bump
    version d = (inr nv, d') ->
  exists id doc,
    Api.parse_uuid S document_id = Some id
    /\ Api.documents d !! id = Some doc
    /\ nv = _bump_version
              (Api.get (default ∅ (Api.doc_metadata doc)) "version") bump.
Proof.
  intros Hblank Hup. apply ReindexFacts.upload_inr in Hup
    as (id & doc & raw & new_content & cv' & bl & chs & embedded
        & Hid & Hdoc & _ & H).
  cbv zeta in H. destruct H as (Hcv & Hnv & _).
  exists id, doc. split; [done|]. split; [done|].
  rewrite Hnv. unfold Api.new_version.
  assert (_bump_version cv' bump
          = _bump_version (Api.get (default ∅ (Api.doc_metadata doc)) "version")
              bump) as Hb.
  { unfold _bump_version.
    by rewrite (DefaultVersionFacts.baseline_keeps_parse _ _ Hcv). }
  destruct version as [v|]; [|done]. simpl in Hblank. by rewrite Hblank.
Qed.

Lemma upload_default_version_witness :
  let S := Fixture.services0 Fixture.no_faults in
  (Api.upload_new_version S "7" None Fixture.file_new "fix typo" "major"
     (Some "  ") Fixture.db0).1 = inr "2.0"
  /\ exists id doc,
       Api.parse_uuid S "7" = Some id
       /\ Api.documents Fixture.db0 !! id = Some doc
       /\ "2.0" = _bump_version
                    (Api.get (default ∅ (Api.doc_metadata doc)) "version")
                    "major".
Proof.
  intros S. split; [vm_compute; reflexivity|].
  refine (upload_default_version S "7" None Fixture.file_new "fix typo" "major"
            (Some "  ") Fixture.db0 "2.0"
            (Api.upload_new_version S "7" None Fixture.file_new "fix typo"
               "major" (Some "  ") Fixture.db0).2 eq_refl _).
  vm_compute. reflexivity.
Defined.
